(** * Serienbrief: filename expansion and batch generation

    A shallow embedding of [serienbrief_pdf.py]: the placeholder expander
    [expand_filename_template] and the batch loop of [main], together with
    the Python string operations they are built from. *)

From Stdlib Require Import Strings.String Strings.Ascii Numbers.DecimalString Numbers.DecimalNat.
From Stdlib Require Import List NArith Arith Bool Lia Permutation FinFun.
Import ListNotations.

Set Implicit Arguments.

(** ** Python strings

    A Python [str] is a sequence of Unicode code points.  Literals of the
    source are all ASCII and are written with [py]. *)

Definition char := N.
Definition str := list char.

Definition py (s : string) : str := map N_of_ascii (list_ascii_of_string s).

Definition lbrace : char := 123%N.
Definition rbrace : char := 125%N.

Fixpoint str_eqb (a b : str) : bool :=
  match a, b with
  | [], [] => true
  | x :: a', y :: b' => N.eqb x y && str_eqb a' b'
  | _, _ => false
  end.

(** [s.startswith(p)]. *)
Fixpoint startswith (p s : str) : bool :=
  match p, s with
  | [], _ => true
  | _ :: _, [] => false
  | a :: p', b :: s' => N.eqb a b && startswith p' s'
  end.

(** [p in s]: some suffix of [s] starts with [p]. *)
Fixpoint contains (p s : str) : bool :=
  startswith p s ||
  match s with
  | [] => false
  | _ :: s' => contains p s'
  end.

(** The scan of [str.replace] for a non-empty [old]: left to right, a match
    at the cursor emits [new] and moves the cursor past the match ([skip]
    counts the characters of the match still to be passed over), otherwise
    the character under the cursor is copied. *)
Fixpoint replace_scan (old new : str) (skip : nat) (s : str) : str :=
  match s with
  | [] => []
  | c :: s' =>
      match skip with
      | S k => replace_scan old new k s'
      | O =>
          if startswith old s
          then new ++ replace_scan old new (pred (length old)) s'
          else c :: replace_scan old new 0 s'
      end
  end.

(** [s.replace(old, new)].  With an empty [old] Python puts [new] before
    every character and at the end. *)
Definition replace (old new s : str) : str :=
  match old with
  | [] => new ++ flat_map (fun c => c :: new) s
  | _ :: _ => replace_scan old new 0 s
  end.

(** [sep.join(pieces)]. *)
Fixpoint join (sep : str) (pieces : list str) : str :=
  match pieces with
  | [] => []
  | [x] => x
  | x :: rest => x ++ sep ++ join sep rest
  end.

(** Whitespace as [str.strip] sees it (CPython's [_PyUnicode_IsWhitespace]). *)
Definition isspace (c : char) : bool :=
  ((9 <=? c) && (c <=? 13) || (28 <=? c) && (c <=? 32)
   || (c =? 133) || (c =? 160) || (c =? 5760)
   || (8192 <=? c) && (c <=? 8202)
   || (c =? 8232) || (c =? 8233) || (c =? 8239) || (c =? 8287)
   || (c =? 12288))%N.

Fixpoint lstrip (s : str) : str :=
  match s with
  | [] => []
  | c :: s' => if isspace c then lstrip s' else s
  end.

Definition rstrip (s : str) : str := rev (lstrip (rev s)).

(** [s.strip()]. *)
Definition strip (s : str) : str := rstrip (lstrip s).

(** Truth value of a string: [not s] holds for the empty string only. *)
Definition py_not (s : str) : bool :=
  match s with
  | [] => true
  | _ :: _ => false
  end.

(** [str(n)] for a non-negative integer. *)
Definition str_of_nat (n : nat) : str :=
  py (NilEmpty.string_of_uint (Nat.to_uint n)).

(** ** Row values and contexts

    [pd.read_csv(csv_file, sep=';', dtype=str)] leaves a present cell as
    the [str] it was read as.  [dtype=str] does not touch the detection of
    missing values: an empty field, or one of pandas' NA spellings, comes
    out as the float NaN.  [row.to_dict()] hands the values on unchanged. *)

Inductive value :=
| VStr (s : str)
| VNaN.

(** [str(value)]. *)
Definition str_of (v : value) : str :=
  match v with
  | VStr s => s
  | VNaN => py "nan"
  end.

(** A Python dict, as its items in insertion order. *)
Definition dict := list (str * value).

Definition keys (d : dict) : list str := map fst d.

Fixpoint dict_get (k : str) (d : dict) : option value :=
  match d with
  | [] => None
  | (k', v) :: d' => if str_eqb k' k then Some v else dict_get k d'
  end.

(** [d[k] = v]: an existing key keeps its place, a new key goes last. *)
Fixpoint dict_set (k : str) (v : value) (d : dict) : dict :=
  match d with
  | [] => [(k, v)]
  | (k', v') :: d' =>
      if str_eqb k' k then (k', v) :: d' else (k', v') :: dict_set k v d'
  end.

(** ** The placeholder expander *)

(** [f"{{{key}}}"] *)
Definition placeholder (key : str) : str := lbrace :: key ++ [rbrace].

Definition expand_step (result : str) (item : str * value) : str :=
  let '(key, value) := item in
  let placeholder := placeholder key in
  if contains placeholder result
  then replace placeholder (str_of value) result
  else result.

Definition expand_filename_template (template_str : str) (context : dict) : str :=
  fold_left expand_step context template_str.

(** The variant without the membership test. *)
Definition expand_step_unguarded (result : str) (item : str * value) : str :=
  let '(key, value) := item in
  replace (placeholder key) (str_of value) result.

Definition expand_unguarded (template_str : str) (context : dict) : str :=
  fold_left expand_step_unguarded context template_str.

(** ** Effects of the batch run

    [main] talks to the Streamlit page, reads the CSV, renders documents
    and fills a ZIP buffer.  The run is a state and exception monad over
    the ordered trace of these calls and the entries of the ZIP buffer. *)

Definition bytes := list N.

(** A Python exception, by the text that tells it. *)
Definition exn := str.

(** The entries of a ZIP file in the order they were stored, each under
    the name the file holds for it. *)
Definition archive := list (str * bytes).

Inductive event :=
| StWarning (body : str)
| StError (body : str)
| StSuccess (body : str)
| StDownloadButton (label : str) (data : archive) (file_name mime : str)
| ReadCsv (csv_file : bytes)
| GenerateDoc (template_bytes : bytes) (context : dict)
| WriteStr (zinfo_or_arcname : str) (data : bytes).

Record state := mkState {
  trace : list event;
  zip_buffer : archive
}.

Inductive outcome (A : Type) :=
| Returned (a : A)
| Raised (e : exn).

Arguments Returned {A} a.
Arguments Raised {A} e.

Definition M (A : Type) := state -> outcome A * state.

Definition ret {A} (a : A) : M A := fun s => (Returned a, s).

Definition raise {A} (e : exn) : M A := fun s => (Raised e, s).

Definition bind {A B} (c : M A) (k : A -> M B) : M B :=
  fun s =>
    match c s with
    | (Returned a, s') => k a s'
    | (Raised e, s') => (Raised e, s')
    end.

Notation "x <- c ;; k" := (bind c (fun x => k))
  (at level 61, c at next level, right associativity).
Notation "c ;;; k" := (bind c (fun _ => k))
  (at level 61, right associativity).

Definition emit (e : event) : M unit :=
  fun s => (Returned tt, mkState (trace s ++ [e]) (zip_buffer s)).

(** [for x in xs: body(x)]; an exception in the body leaves the loop. *)
Fixpoint for_each {A} (xs : list A) (body : A -> M unit) : M unit :=
  match xs with
  | [] => ret tt
  | x :: xs' => body x ;;; for_each xs' body
  end.

(** [zip_buffer = BytesIO()] with a [ZipFile] opened on it. *)
Definition new_zip : M unit :=
  fun s => (Returned tt, mkState (trace s) []).

(** A new entry at the end of the ZIP file; a name that is there already
    is no obstacle. *)
Definition store (filename : str) (data : bytes) : M unit :=
  fun s => (Returned tt, mkState (trace s) (zip_buffer s ++ [(filename, data)])).

(** [zip_buffer.getvalue()] *)
Definition getvalue : M archive := fun s => (Returned (zip_buffer s), s).

(** ** The tabular source *)

(** A label of the frame's index, as far as [f"{index}"] shows it: the
    row number where [read_csv] numbers the rows, and else the text the
    label is formatted to ([read_csv] takes the labels from the first
    field when the data lines have a field more than the header). *)
Inductive label :=
| LPos (n : nat)
| LText (text : str).

(** [f"{index}"] *)
Definition format_label (index : label) : str :=
  match index with
  | LPos n => str_of_nat n
  | LText text => text
  end.

(** A frame, by its column names and by what [data.iterrows()] yields:
    every row's index label with its cells. *)
Record DataFrame := mkFrame {
  columns : list str;
  iterrows : list (label * list value)
}.

Definition index_of (data : DataFrame) : list label := map fst (iterrows data).

Definition rows (data : DataFrame) : list (list value) := map snd (iterrows data).

(** The index of a frame whose rows [read_csv] has numbered. *)
Definition range_index (n : nat) : list label := map LPos (seq 0 n).

Definition range_frame (columns : list str) (rows : list (list value)) : DataFrame :=
  mkFrame columns (combine (range_index (length rows)) rows).

(** [row.to_dict()]: the cells of the row under the column names. *)
Definition to_dict (columns : list str) (row : list value) : dict :=
  fold_left (fun d kv => dict_set (fst kv) (snd kv) d) (combine columns row) [].

(** What [read_csv] with [dtype=str] and no word on missing values makes
    of the text of one field: a text among the spellings it takes for
    missing ([na_values], the empty text being one) is NaN, every other
    text is kept as it is. *)
Definition read_cell (na_values : list str) (field : str) : value :=
  if existsb (str_eqb field) na_values then VNaN else VStr field.

(** The cells of a data line with no more fields than the header: the
    fields the line stops short of are missing. *)
Definition read_row (na_values : list str) (width : nat) (fields : list str)
  : list value :=
  map (read_cell na_values) fields ++ repeat VNaN (width - length fields).

(** ** The batch orchestrator *)

Record inputs := mkInputs {
  uploaded_template : option bytes;
  csv_file : option bytes;
  filename_template : str;
  button : bool
}.

(** The name of a row's document before the extension is put on. *)
Definition filename_prefix (filename_template : str) (index : label) (context : dict) : str :=
  let filename_prefix := expand_filename_template filename_template context in
  if py_not (strip filename_prefix)
  then py "Eintrag_" ++ format_label index
  else filename_prefix.

Definition docx_filename (filename_template : str) (index : label) (context : dict) : str :=
  filename_prefix filename_template index context ++ py ".docx".

Section Batch.

(** [pd.read_csv(csv_file, sep=';', dtype=str)]: a frame, or an exception. *)
Variable read_csv : bytes -> DataFrame + exn.

(** What [DocxTemplate] makes of the template and a context: the bytes of
    the saved document, or an exception. *)
Variable docx_render : bytes -> dict -> bytes + exn.

(** What [zipfile] makes of the name [writestr] is called with: the name
    it stores the entry under, or the exception it raises for the name. *)
Variable zip_name : str -> str + exn.

Definition generate_doc (template_bytes : bytes) (context : dict) : M bytes :=
  emit (GenerateDoc template_bytes context) ;;;
  match docx_render template_bytes context with
  | inl docx_bytes => ret docx_bytes
  | inr e => raise e
  end.

(** [zf.writestr(zinfo_or_arcname, data)] *)
Definition writestr (zinfo_or_arcname : str) (data : bytes) : M unit :=
  emit (WriteStr zinfo_or_arcname data) ;;;
  match zip_name zinfo_or_arcname with
  | inl filename => store filename data
  | inr e => raise e
  end.

(** The body of the loop over [data.iterrows()]. *)
Definition process_row (template : bytes) (filename_template : str)
    (columns : list str) (item : label * list value) : M unit :=
  let '(index, row) := item in
  let context := to_dict columns row in
  let docx_filename := docx_filename filename_template index context in
  docx_bytes <- generate_doc template context ;;
  writestr docx_filename docx_bytes.

Definition main (inp : inputs) : M unit :=
  if button inp then
    match uploaded_template inp, csv_file inp with
    | Some template, Some csv =>
        emit (ReadCsv csv) ;;;
        match read_csv csv with
        | inr e => emit (StError (py "Fehler beim Einlesen der CSV-Datei: " ++ e))
        | inl data =>
            new_zip ;;;
            for_each (iterrows data)
              (process_row template (filename_template inp) (columns data)) ;;;
            emit (StSuccess (py "Dokumente erfolgreich generiert!")) ;;;
            data <- getvalue ;;
            emit (StDownloadButton (py "ZIP-Archiv herunterladen") data
                    (py "dokumente.zip") (py "application/x-zip-compressed"))
        end
    | _, _ =>
        emit (StWarning
                (py "Bitte lade sowohl das Word-Template als auch eine CSV-Datei hoch."))
    end
  else ret tt.

(** One press of the button on a fresh page. *)
Definition run (inp : inputs) : outcome unit * state :=
  main inp (mkState [] []).

End Batch.

(** What reaches the user: the archives offered for download. *)
Fixpoint downloads (t : list event) : list archive :=
  match t with
  | [] => []
  | StDownloadButton _ data _ _ :: t' => data :: downloads t'
  | _ :: t' => downloads t'
  end.

Fixpoint warnings (t : list event) : list str :=
  match t with
  | [] => []
  | StWarning body :: t' => body :: warnings t'
  | _ :: t' => warnings t'
  end.

Fixpoint errors (t : list event) : list str :=
  match t with
  | [] => []
  | StError body :: t' => body :: errors t'
  | _ :: t' => errors t'
  end.

Fixpoint successes (t : list event) : list str :=
  match t with
  | [] => []
  | StSuccess body :: t' => body :: successes t'
  | _ :: t' => successes t'
  end.

(** The contexts [generate_doc] was called with, in order. *)
Fixpoint rendered (t : list event) : list dict :=
  match t with
  | [] => []
  | GenerateDoc _ context :: t' => context :: rendered t'
  | _ :: t' => rendered t'
  end.

Fixpoint csv_reads (t : list event) : list bytes :=
  match t with
  | [] => []
  | ReadCsv f :: t' => f :: csv_reads t'
  | _ :: t' => csv_reads t'
  end.

(** The calls of [writestr], by name and data, in order. *)
Fixpoint written (t : list event) : list (str * bytes) :=
  match t with
  | [] => []
  | WriteStr name data :: t' => (name, data) :: written t'
  | _ :: t' => written t'
  end.

(** ** Templates by their token structure *)

Definition not_open (c : char) : bool := negb (N.eqb c lbrace).
Definition not_close (c : char) : bool := negb (N.eqb c rbrace).

Definition brace_free (s : str) : bool :=
  forallb (fun c => negb (N.eqb c lbrace) && negb (N.eqb c rbrace)) s.

(** A key and its value as a string, both without braces. *)
Definition item_ok (item : str * value) : bool :=
  brace_free (fst item) && brace_free (str_of (snd item)).

Inductive segment :=
| Lit (text : str)
| Tok (name : str).

Definition seg_text (g : segment) : str :=
  match g with
  | Lit text => text
  | Tok name => placeholder name
  end.

Definition seg_ok (g : segment) : bool :=
  match g with
  | Lit text => brace_free text
  | Tok name => brace_free name
  end.

Definition template_of (segs : list segment) : str := flat_map seg_text segs.

(** One turn of the loop, on the tokens. *)
Definition seg_step (key : str) (new : str) (g : segment) : segment :=
  match g with
  | Lit text => Lit text
  | Tok name => if str_eqb key name then Lit new else Tok name
  end.

(** Every token looked up at once. *)
Definition seg_subst (context : dict) (g : segment) : str :=
  match g with
  | Lit text => text
  | Tok name =>
      match dict_get name context with
      | Some v => str_of v
      | None => placeholder name
      end
  end.

Definition seg_resolve (context : dict) (g : segment) : segment :=
  match g with
  | Lit text => Lit text
  | Tok name =>
      match dict_get name context with
      | Some v => Lit (str_of v)
      | None => Tok name
      end
  end.

(** The token's name is a key of the context. *)
Definition seg_known (context : dict) (g : segment) : bool :=
  match g with
  | Lit _ => true
  | Tok name =>
      match dict_get name context with
      | Some _ => true
      | None => false
      end
  end.

(** A CSV reader that raises on every file, as [read_csv] does on a file
    without a header line. *)
(** ** What a run leaves behind, row by row *)

Section Expected.

Variable docx_render : bytes -> dict -> bytes + exn.
Variable zip_name : str -> str + exn.
Variables (template : bytes) (filename_template : str) (columns : list str).

Definition render_ok (row : list value) : bool :=
  match docx_render template (to_dict columns row) with
  | inl _ => true
  | inr _ => false
  end.

Definition docx_bytes_of (context : dict) : bytes :=
  match docx_render template context with
  | inl docx_bytes => docx_bytes
  | inr _ => []
  end.

(** The name [writestr] is called with for a row. *)
Definition row_name (item : label * list value) : str :=
  docx_filename filename_template (fst item) (to_dict columns (snd item)).

Definition write_ok (item : label * list value) : bool :=
  match zip_name (row_name item) with
  | inl _ => true
  | inr _ => false
  end.

(** The row is rendered and written without an exception. *)
Definition row_ok (item : label * list value) : bool :=
  render_ok (snd item) && write_ok item.

Definition stored_name (name : str) : str :=
  match zip_name name with
  | inl filename => filename
  | inr _ => name
  end.

Definition row_entry (item : label * list value) : str * bytes :=
  (stored_name (row_name item), docx_bytes_of (to_dict columns (snd item))).

Definition row_events (item : label * list value) : list event :=
  [GenerateDoc template (to_dict columns (snd item));
   WriteStr (row_name item) (docx_bytes_of (to_dict columns (snd item)))].

End Expected.

(** The three messages and the download button of [main]. *)
Definition warning_text : str :=
  py "Bitte lade sowohl das Word-Template als auch eine CSV-Datei hoch.".
Definition error_text (e : exn) : str :=
  py "Fehler beim Einlesen der CSV-Datei: " ++ e.
Definition success_text : str := py "Dokumente erfolgreich generiert!".
Definition download_button (data : archive) : event :=
  StDownloadButton (py "ZIP-Archiv herunterladen") data
    (py "dokumente.zip") (py "application/x-zip-compressed").

Definition pressed (template csv : option bytes) (filename_template : str) : inputs :=
  mkInputs template csv filename_template true.

(** ** The ways a run can go *)

Section Shapes.

Variable read_csv : bytes -> DataFrame + exn.
Variable docx_render : bytes -> dict -> bytes + exn.
Variable zip_name : str -> str + exn.

Inductive run_shape (inp : inputs) : outcome unit * state -> Prop :=
| ShapeIdle :
    button inp = false ->
    run_shape inp (Returned tt, mkState [] [])
| ShapeMissing :
    button inp = true ->
    uploaded_template inp = None \/ csv_file inp = None ->
    run_shape inp (Returned tt, mkState [StWarning warning_text] [])
| ShapeUnreadable template csv e :
    inp = pressed (Some template) (Some csv) (filename_template inp) ->
    read_csv csv = inr e ->
    run_shape inp (Returned tt, mkState [ReadCsv csv; StError (error_text e)] [])
| ShapeDone template csv data :
    inp = pressed (Some template) (Some csv) (filename_template inp) ->
    read_csv csv = inl data ->
    forallb (row_ok docx_render zip_name template (filename_template inp) (columns data))
      (iterrows data) = true ->
    let entries :=
      map (row_entry docx_render zip_name template (filename_template inp) (columns data))
        (iterrows data) in
    run_shape inp
      (Returned tt,
       mkState
         (ReadCsv csv
          :: flat_map
               (row_events docx_render template (filename_template inp) (columns data))
               (iterrows data)
          ++ [StSuccess success_text; download_button entries])
         entries)
| ShapeRenderFailed template csv data done item rest e :
    inp = pressed (Some template) (Some csv) (filename_template inp) ->
    read_csv csv = inl data ->
    iterrows data = done ++ item :: rest ->
    forallb (row_ok docx_render zip_name template (filename_template inp) (columns data))
      done = true ->
    docx_render template (to_dict (columns data) (snd item)) = inr e ->
    run_shape inp
      (Raised e,
       mkState
         (ReadCsv csv
          :: flat_map
               (row_events docx_render template (filename_template inp) (columns data))
               done
          ++ [GenerateDoc template (to_dict (columns data) (snd item))])
         (map (row_entry docx_render zip_name template (filename_template inp)
                 (columns data)) done))
| ShapeWriteFailed template csv data done item rest e :
    inp = pressed (Some template) (Some csv) (filename_template inp) ->
    read_csv csv = inl data ->
    iterrows data = done ++ item :: rest ->
    forallb (row_ok docx_render zip_name template (filename_template inp) (columns data))
      done = true ->
    render_ok docx_render template (columns data) (snd item) = true ->
    zip_name (row_name (filename_template inp) (columns data) item) = inr e ->
    run_shape inp
      (Raised e,
       mkState
         (ReadCsv csv
          :: flat_map
               (row_events docx_render template (filename_template inp) (columns data))
               (done ++ [item]))
         (map (row_entry docx_render zip_name template (filename_template inp)
                 (columns data)) done)).

End Shapes.

(** ** Sample collaborators

    A CSV reader that parses its file to a given frame and one that raises
    on every file, a renderer that hands the template back for every
    context and one that raises on a context with a NaN in it, and the
    names as [zipfile] of CPython keeps them where the path separator is
    the slash. *)

Definition csv_of (data : DataFrame) : bytes -> DataFrame + exn :=
  fun _ => inl data.

Definition csv_unreadable : bytes -> DataFrame + exn :=
  fun _ => inr (py "No columns to parse from file").

Definition echo_render : bytes -> dict -> bytes + exn :=
  fun template_bytes _ => inl template_bytes.

Definition is_nan (v : value) : bool :=
  match v with
  | VNaN => true
  | VStr _ => false
  end.

Definition strict_render : bytes -> dict -> bytes + exn :=
  fun template_bytes context =>
    if existsb (fun kv => is_nan (snd kv)) context
    then inr (py "cannot render NaN")
    else inl template_bytes.

(** [ZipInfo] cuts the name at the first NUL. *)
Fixpoint before_nul (s : str) : str :=
  match s with
  | [] => []
  | c :: s' => if N.eqb c 0 then [] else c :: before_nul s'
  end.

(** The bytes of a character in UTF-8. *)
Definition utf8_size (c : char) : N :=
  (if c <? 128 then 1 else if c <? 2048 then 2 else if c <? 65536 then 3 else 4)%N.

Definition encoded_size (s : str) : N :=
  fold_right (fun c n => (utf8_size c + n)%N) 0%N s.

Definition is_surrogate (c : char) : bool := ((55296 <=? c) && (c <=? 57343))%N.

(** The name is cut at the first NUL; what is left is encoded, which
    fails on a surrogate, and its length in bytes has to go into the 16
    bits the file header has for it. *)
Definition zipfile_name (name : str) : str + exn :=
  let filename := before_nul name in
  if existsb is_surrogate filename
  then inr (py "surrogates not allowed")
  else if (65535 <? encoded_size filename)%N
       then inr (py "ushort format requires 0 <= number <= 65535")
       else inl filename.

(** The NA spellings [read_csv] starts out with. *)
Definition default_na_values : list str :=
  map py [""; "#N/A"; "#N/A N/A"; "#NA"; "-1.#IND"; "-1.#QNAN"; "-NaN"; "-nan";
          "1.#IND"; "1.#QNAN"; "<NA>"; "N/A"; "NA"; "NULL"; "NaN"; "None";
          "n/a"; "nan"; "null"]%string.

Definition two_rows : DataFrame :=
  range_frame [py "Vorname"; py "Nachname"]
    [[VStr (py "Anna"); VStr (py "Muster")]; [VStr (py "Bob"); VStr (py "Meier")]].

Definition same_name_rows : DataFrame :=
  range_frame [py "Vorname"; py "Nachname"]
    [[VStr (py "Anna"); VStr (py "Muster")]; [VStr (py "Bob"); VStr (py "Muster")]].

Definition gap_rows : DataFrame :=
  range_frame [py "Vorname"; py "Nachname"]
    [[VStr (py "Anna"); VStr (py "Muster")];
     [VStr (py "Bob"); VNaN];
     [VStr (py "Cleo"); VStr (py "Kurz")]].

Definition header_only : DataFrame :=
  range_frame [py "Vorname"; py "Nachname"] [].

(** The frame of a file whose data lines end in a delimiter: the first
    field of each line has become its label, the other fields have moved
    one column to the left and the last column is empty. *)
Definition labelled_rows : DataFrame :=
  mkFrame [py "Vorname"; py "Nachname"]
    [(LText (py "Anna"), [VStr (py "Muster"); VNaN]);
     (LText (py "Bob"), [VStr (py "Meier"); VNaN])].

(** A filename template of 16383 characters of four bytes each in UTF-8
    (U+1F600): with the extension the name has 65537 bytes, more than a
    ZIP file header can say. *)
Definition long_template : str := N.iter 16383 (cons 128512%N) [].

(** * Properties *)

(** ** The string operations on small inputs *)

Example replace_leftmost : replace (py "aa") (py "b") (py "aaa") = py "ba".
Proof. reflexivity. Qed.

Example replace_empty_old : replace [] (py "-") (py "abc") = py "-a-b-c-".
Proof. reflexivity. Qed.

Example replace_all_hits :
  replace (py "{x}") (py "1") (py "{x}_{y}_{x}") = py "1_{y}_1".
Proof. reflexivity. Qed.

Example contains_inner : contains (py "{x}") (py "A_{x}_B") = true.
Proof. reflexivity. Qed.

Example contains_absent : contains (py "{x}") (py "A_{y}_B") = false.
Proof. reflexivity. Qed.

Example strip_both_ends : strip (py "  a b ") = py "a b".
Proof. reflexivity. Qed.

Example str_of_nat_120 : str_of_nat 120 = py "120".
Proof. reflexivity. Qed.

Example placeholder_key : placeholder (py "Kundennummer") = py "{Kundennummer}".
Proof. reflexivity. Qed.

Example expand_docstring :
  expand_filename_template (py "Rechnung_{Kundennummer}_{Nachname}")
    [(py "Kundennummer", VStr (py "1234")); (py "Nachname", VStr (py "Meier"))]
  = py "Rechnung_1234_Meier".
Proof. reflexivity. Qed.

(** ** String operations *)

#[local] Arguments N.eqb : simpl never.

Lemma str_eqb_eq (a b : str) : str_eqb a b = true <-> a = b.
Proof.
  revert b; induction a as [|x a IH]; intros [|y b]; simpl;
    try (split; [discriminate | discriminate]); try tauto.
  rewrite andb_true_iff, N.eqb_eq, IH.
  split; [intros [-> ->]; reflexivity | intros H; inversion H; auto].
Qed.

Lemma str_eqb_refl (a : str) : str_eqb a a = true.
Proof. apply str_eqb_eq; reflexivity. Qed.

Lemma str_eqb_neq (a b : str) : a <> b -> str_eqb a b = false.
Proof.
  intros H; destruct (str_eqb a b) eqn:E; [|reflexivity].
  apply str_eqb_eq in E; contradiction.
Qed.

Lemma startswith_app (p r : str) : startswith p (p ++ r) = true.
Proof. induction p as [|a p IH]; simpl; [|rewrite N.eqb_refl]; auto. Qed.

Lemma startswith_split (p s : str) :
  startswith p s = true -> exists r, s = p ++ r.
Proof.
  revert s; induction p as [|a p IH]; intros s H; simpl in *.
  - exists s; reflexivity.
  - destruct s as [|b s]; [discriminate|].
    apply andb_true_iff in H as [Hab Hp]. apply N.eqb_eq in Hab as ->.
    destruct (IH _ Hp) as [r ->]. exists r; reflexivity.
Qed.

Lemma startswith_app_l (p a b : str) :
  startswith p a = true -> startswith p (a ++ b) = true.
Proof.
  intros H. destruct (startswith_split _ _ H) as [r ->].
  rewrite <- app_assoc. apply startswith_app.
Qed.

Lemma contains_here (p s : str) : startswith p s = true -> contains p s = true.
Proof. intros H; destruct s; simpl; rewrite H; reflexivity. Qed.

Lemma contains_app (p a b : str) : contains p (a ++ p ++ b) = true.
Proof.
  induction a as [|c a IH].
  - change ([] ++ p ++ b) with (p ++ b). apply contains_here, startswith_app.
  - change ((c :: a) ++ p ++ b) with (c :: (a ++ p ++ b)).
    cbn [contains]. rewrite IH. apply orb_true_r.
Qed.

Lemma contains_split (p s : str) :
  contains p s = true -> exists a b, s = a ++ p ++ b.
Proof.
  induction s as [|c s IH]; simpl; intros H.
  - rewrite orb_false_r in H. destruct (startswith_split _ _ H) as [r Hr].
    exists [], r; exact Hr.
  - apply orb_true_iff in H as [H|H].
    + destruct (startswith_split _ _ H) as [r Hr]. exists [], r; exact Hr.
    + destruct (IH H) as (a & b & ->). exists (c :: a), b; reflexivity.
Qed.

Lemma contains_tail (p : str) (c : char) (s : str) :
  contains p (c :: s) = false ->
  startswith p (c :: s) = false /\ contains p s = false.
Proof. simpl; intros H; apply orb_false_iff in H; exact H. Qed.

(** *** The scan of [replace], by its three cases *)

Lemma replace_scan_skip (old new a b : str) :
  replace_scan old new (length a) (a ++ b) = replace_scan old new 0 b.
Proof. induction a as [|c a IH]; simpl; auto. Qed.

Lemma scan_hit (c : char) (q new r : str) :
  replace_scan (c :: q) new 0 ((c :: q) ++ r) = new ++ replace_scan (c :: q) new 0 r.
Proof.
  change ((c :: q) ++ r) with (c :: (q ++ r)).
  cbn [replace_scan].
  change (c :: q ++ r) with ((c :: q) ++ r).
  rewrite startswith_app. cbn [length pred].
  rewrite replace_scan_skip. reflexivity.
Qed.

Lemma scan_miss (old new : str) (c : char) (s : str) :
  startswith old (c :: s) = false ->
  replace_scan old new 0 (c :: s) = c :: replace_scan old new 0 s.
Proof. intros H. cbn [replace_scan]. rewrite H. reflexivity. Qed.

(** Induction along the scan: a match is passed over whole. *)
Lemma scan_ind (old : str) (P : str -> Prop) :
  old <> [] ->
  P [] ->
  (forall r, P r -> P (old ++ r)) ->
  (forall c s, startswith old (c :: s) = false -> P s -> P (c :: s)) ->
  forall s, P s.
Proof.
  intros Hold Hnil Hhit Hmiss s.
  remember (length s) as n eqn:Hn.
  revert s Hn. induction n as [n IH] using lt_wf_ind. intros s Hn.
  destruct s as [|c s]; [exact Hnil|].
  destruct (startswith old (c :: s)) eqn:E.
  - destruct (startswith_split _ _ E) as [r Hr]. rewrite Hr.
    apply Hhit. apply (IH (length r)); [|reflexivity].
    subst n. rewrite Hr, length_app.
    destruct old; [contradiction | simpl; lia].
  - apply Hmiss; [exact E|]. apply (IH (length s)); [subst n; simpl; lia | reflexivity].
Qed.

Lemma replace_absent (old new s : str) :
  contains old s = false -> replace old new s = s.
Proof.
  destruct old as [|c q].
  - destruct s; discriminate.
  - unfold replace. induction s as [|d s IH]; intros H; [reflexivity|].
    apply contains_tail in H as [Hs Hc].
    rewrite scan_miss by exact Hs. rewrite IH by exact Hc. reflexivity.
Qed.

Lemma expand_app (t : str) (c1 c2 : dict) :
  expand_filename_template t (c1 ++ c2)
  = expand_filename_template (expand_filename_template t c1) c2.
Proof. unfold expand_filename_template. apply fold_left_app. Qed.

Lemma expand_step_replace (result key : str) (v : value) :
  expand_step result (key, v) = replace (placeholder key) (str_of v) result.
Proof.
  unfold expand_step. destruct (contains _ _) eqn:E; [reflexivity|].
  symmetry; apply replace_absent; exact E.
Qed.

(** C10: the membership test before [replace] changes nothing: the
    expander returns what the variant that replaces unconditionally for
    every key returns. *)
Theorem expand_guard_redundant (template_str : str) (context : dict) :
  expand_filename_template template_str context
  = expand_unguarded template_str context.
Proof.
  unfold expand_filename_template, expand_unguarded.
  revert template_str.
  induction context as [|[key v] context IH]; intros t; [reflexivity|].
  cbn [fold_left]. rewrite IH. f_equal. apply expand_step_replace.
Qed.

(** ** Braces

    A placeholder of a key without braces has its only opening brace in
    front and its only closing brace at the end, so an opening brace in
    the text is a point no match runs across. *)

Lemma brace_free_split (s : str) :
  brace_free s = true -> forallb not_open s = true /\ forallb not_close s = true.
Proof.
  unfold brace_free. induction s as [|c s IH]; simpl; [auto|].
  rewrite !andb_true_iff. intros [[H1 H2] H3]. destruct (IH H3). auto.
Qed.

Lemma brace_free_app (a b : str) :
  brace_free (a ++ b) = brace_free a && brace_free b.
Proof. apply forallb_app. Qed.

Lemma not_open_tail (k : str) :
  brace_free k = true -> forallb not_open (k ++ [rbrace]) = true.
Proof.
  intros H. apply brace_free_split in H as [H _].
  rewrite forallb_app, H. reflexivity.
Qed.

Lemma startswith_before_open (q a b : str) :
  forallb not_open q = true ->
  startswith q (a ++ lbrace :: b) = true -> startswith q a = true.
Proof.
  revert a; induction q as [|x q IH]; intros a Hq H; [reflexivity|].
  simpl in Hq. apply andb_true_iff in Hq as [Hx Hq].
  destruct a as [|y a]; simpl in H |- *.
  - apply andb_true_iff in H as [H _]. unfold not_open in Hx.
    rewrite H in Hx. discriminate.
  - apply andb_true_iff in H as [-> H]. simpl. apply IH; assumption.
Qed.

Lemma startswith_not_open (q : str) (c : char) (s : str) :
  not_open c = true -> startswith (lbrace :: q) (c :: s) = false.
Proof.
  unfold not_open. intros H. simpl. rewrite N.eqb_sym.
  destruct (N.eqb c lbrace); [discriminate | reflexivity].
Qed.

(** Text without an opening brace is copied. *)
Lemma scan_literal (q new a b : str) :
  forallb not_open a = true ->
  replace_scan (lbrace :: q) new 0 (a ++ b)
  = a ++ replace_scan (lbrace :: q) new 0 b.
Proof.
  induction a as [|c a IH]; intros H; [reflexivity|].
  simpl in H. apply andb_true_iff in H as [Hc Ha].
  change ((c :: a) ++ b) with (c :: (a ++ b)).
  rewrite scan_miss by (apply startswith_not_open; exact Hc).
  rewrite IH by exact Ha. reflexivity.
Qed.

(** The scan starts afresh at every opening brace. *)
Lemma scan_open (q new a b : str) :
  forallb not_open q = true ->
  replace_scan (lbrace :: q) new 0 (a ++ lbrace :: b)
  = replace_scan (lbrace :: q) new 0 a
    ++ replace_scan (lbrace :: q) new 0 (lbrace :: b).
Proof.
  intros Hq. pattern a. apply (@scan_ind (lbrace :: q)); [discriminate | reflexivity | |].
  - intros r IH. rewrite <- app_assoc, !scan_hit, IH, app_assoc. reflexivity.
  - intros c s Hmiss IH.
    change ((c :: s) ++ lbrace :: b) with (c :: (s ++ lbrace :: b)).
    rewrite (@scan_miss _ new c s Hmiss).
    rewrite (@scan_miss (lbrace :: q) new c (s ++ lbrace :: b)); [rewrite IH; reflexivity|].
    destruct (startswith (lbrace :: q) (c :: s ++ lbrace :: b)) eqn:E; [|reflexivity].
    simpl in E. apply andb_true_iff in E as [Ec E].
    apply startswith_before_open in E; [|exact Hq].
    simpl in Hmiss. rewrite Ec, E in Hmiss. discriminate.
Qed.

(** Two names without a closing brace that are closed at the same place
    are the same name. *)
Lemma startswith_name (k n b : str) :
  forallb not_close k = true -> forallb not_close n = true ->
  startswith (k ++ [rbrace]) (n ++ rbrace :: b) = true -> k = n.
Proof.
  revert n; induction k as [|x k IH]; intros [|y n] Hk Hn H; simpl in *.
  - reflexivity.
  - apply andb_true_iff in Hn as [Hy _]. apply andb_true_iff in H as [H _].
    unfold not_close in Hy. rewrite N.eqb_sym, H in Hy. discriminate.
  - apply andb_true_iff in Hk as [Hx _]. apply andb_true_iff in H as [H _].
    unfold not_close in Hx. rewrite H in Hx. discriminate.
  - apply andb_true_iff in Hk as [_ Hk]. apply andb_true_iff in Hn as [_ Hn].
    apply andb_true_iff in H as [Hxy H]. apply N.eqb_eq in Hxy as ->.
    f_equal. apply IH; assumption.
Qed.

Lemma startswith_other_token (k n b : str) :
  brace_free k = true -> brace_free n = true -> k <> n ->
  startswith (placeholder k) (placeholder n ++ b) = false.
Proof.
  intros Hk Hn Hne. destruct (startswith _ _) eqn:E; [|reflexivity].
  exfalso; apply Hne. unfold placeholder in E. simpl in E.
  rewrite <- app_assoc in E. simpl in E.
  apply brace_free_split in Hk as [_ Hk]. apply brace_free_split in Hn as [_ Hn].
  eapply startswith_name; eassumption.
Qed.

(** A token of another name is copied, whatever stands around it. *)
Lemma replace_other_token (k n new pre post : str) :
  brace_free k = true -> brace_free n = true -> k <> n ->
  replace (placeholder k) new (pre ++ placeholder n ++ post)
  = replace (placeholder k) new pre ++ placeholder n
    ++ replace (placeholder k) new post.
Proof.
  intros Hk Hn Hne. unfold replace, placeholder at 1 3 5.
  assert (Hq : forallb not_open (k ++ [rbrace]) = true) by (apply not_open_tail; exact Hk).
  change (placeholder n ++ post) with (lbrace :: ((n ++ [rbrace]) ++ post)).
  rewrite scan_open by exact Hq. f_equal.
  rewrite scan_miss.
  - rewrite scan_literal by (apply not_open_tail; exact Hn). reflexivity.
  - apply (startswith_other_token post Hk Hn Hne).
Qed.

(** *** Templates by their tokens *)

Lemma replace_template_of (key new : str) (segs : list segment) :
  brace_free key = true ->
  forallb seg_ok segs = true ->
  replace (placeholder key) new (template_of segs)
  = template_of (map (seg_step key new) segs).
Proof.
  intros Hk. induction segs as [|g segs IH]; intros Hs; [reflexivity|].
  simpl in Hs. apply andb_true_iff in Hs as [Hg Hs].
  unfold template_of in *. cbn [flat_map map]. destruct g as [text|name]; simpl in Hg.
  - cbn [seg_step seg_text]. unfold replace, placeholder in *.
    apply brace_free_split in Hg as [Hg _].
    rewrite scan_literal by exact Hg. rewrite IH by exact Hs. reflexivity.
  - cbn [seg_step seg_text]. destruct (str_eqb key name) eqn:E.
    + apply str_eqb_eq in E as <-. cbn [seg_text].
      unfold replace in *. unfold placeholder at 1 3. rewrite scan_hit.
      rewrite <- IH by exact Hs. reflexivity.
    + assert (Hne : key <> name).
      { intros ->. rewrite str_eqb_refl in E. discriminate. }
      pose proof (replace_other_token new [] (flat_map seg_text segs) Hk Hg Hne) as R.
      change (replace (placeholder key) new []) with (@nil char) in R.
      cbn [app] in R. rewrite R, IH by exact Hs. reflexivity.
Qed.

Lemma seg_step_ok (key new : str) (segs : list segment) :
  brace_free new = true ->
  forallb seg_ok segs = true ->
  forallb seg_ok (map (seg_step key new) segs) = true.
Proof.
  intros Hv. induction segs as [|g segs IH]; simpl; [auto|].
  rewrite !andb_true_iff. intros [Hg Hs]. split; [|auto].
  destruct g as [text|name]; simpl in *; [exact Hg|].
  destruct (str_eqb key name); simpl; assumption.
Qed.

(** On a template of tokens and brace-free text, with brace-free keys and
    values, the loop over the context looks every token up once. *)
Lemma expand_template_of (context : dict) (segs : list segment) :
  forallb item_ok context = true ->
  forallb seg_ok segs = true ->
  expand_filename_template (template_of segs) context
  = flat_map (seg_subst context) segs.
Proof.
  revert segs. induction context as [|[key v] context IH]; intros segs Hc Hs.
  - reflexivity.
  - simpl in Hc. apply andb_true_iff in Hc as [Hi Hc].
    unfold item_ok in Hi. simpl in Hi. apply andb_true_iff in Hi as [Hk Hv].
    unfold expand_filename_template. cbn [fold_left].
    rewrite expand_step_replace, replace_template_of by assumption.
    fold (expand_filename_template (template_of (map (seg_step key (str_of v)) segs)) context).
    rewrite IH by (try apply seg_step_ok; assumption).
    rewrite flat_map_concat_map, map_map, <- flat_map_concat_map.
    apply flat_map_ext. intros [text|name]; cbn; [reflexivity|].
    destruct (str_eqb key name); reflexivity.
Qed.

(** ** Contexts as dicts *)

Lemma dict_get_Some_In (k : str) (v : value) (d : dict) :
  dict_get k d = Some v -> In (k, v) d.
Proof.
  induction d as [|[k' v'] d IH]; simpl; [discriminate|].
  destruct (str_eqb k' k) eqn:E.
  - apply str_eqb_eq in E as ->. intros [= ->]. left; reflexivity.
  - intros H. right. apply IH, H.
Qed.

Lemma dict_get_None (k : str) (d : dict) :
  dict_get k d = None <-> ~ In k (keys d).
Proof.
  induction d as [|[k' v'] d IH]; simpl; [tauto|].
  destruct (str_eqb k' k) eqn:E.
  - apply str_eqb_eq in E as ->. split; [discriminate | tauto].
  - rewrite IH. split; [|tauto]. intros H [->|H']; [|tauto].
    rewrite str_eqb_refl in E. discriminate.
Qed.

Lemma dict_get_In (k : str) (v : value) (d : dict) :
  NoDup (keys d) -> In (k, v) d -> dict_get k d = Some v.
Proof.
  induction d as [|[k' v'] d IH]; simpl; [tauto|].
  intros Hnd [[= -> ->]|Hin].
  - rewrite str_eqb_refl. reflexivity.
  - inversion Hnd as [|? ? Hk' Hnd']; subst.
    rewrite str_eqb_neq; [apply IH; assumption|].
    intros ->. apply Hk'. apply (in_map fst) in Hin. exact Hin.
Qed.

Lemma dict_get_perm (k : str) (d d' : dict) :
  NoDup (keys d) -> Permutation d d' -> dict_get k d = dict_get k d'.
Proof.
  intros Hnd Hp.
  assert (Hnd' : NoDup (keys d')).
  { eapply Permutation_NoDup; [apply Permutation_map, Hp | exact Hnd]. }
  destruct (dict_get k d) as [v|] eqn:E.
  - symmetry. apply dict_get_In; [exact Hnd'|].
    eapply Permutation_in; [exact Hp|]. apply dict_get_Some_In, E.
  - symmetry. apply dict_get_None. apply dict_get_None in E.
    intros Hin. apply E. eapply Permutation_in; [|exact Hin].
    apply Permutation_map, Permutation_sym, Hp.
Qed.

Lemma forallb_perm {A} (f : A -> bool) (l l' : list A) :
  Permutation l l' -> forallb f l = true -> forallb f l' = true.
Proof.
  intros Hp H. apply forallb_forall. intros x Hx.
  rewrite forallb_forall in H. apply H.
  eapply Permutation_in; [apply Permutation_sym, Hp | exact Hx].
Qed.

(** ** The expander *)

(** C4, as stated, fails: a value that carries the token of another key
    is expanded further or not, depending on which key comes first. *)
Lemma expand_order_dependent :
  let c1 := [(py "a", VStr (py "{b}")); (py "b", VStr (py "x"))] in
  let c2 := [(py "b", VStr (py "x")); (py "a", VStr (py "{b}"))] in
  Permutation c1 c2 /\ NoDup (keys c1) /\
  expand_filename_template (py "{a}") c1 = py "x" /\
  expand_filename_template (py "{a}") c2 = py "{b}" /\
  expand_filename_template (py "{a}") c1 <> expand_filename_template (py "{a}") c2.
Proof.
  cbv zeta. split; [apply perm_swap|]. split.
  - repeat constructor; simpl; intuition discriminate.
  - repeat split; try reflexivity. vm_compute. discriminate.
Qed.

(** C4 (amended): for a template made of brace-free text and tokens
    with brace-free names, and a context of distinct keys in which
    no key and no value (as a string) has a brace, the result of the
    expander is the same for any two orders of the key-value pairs. *)
Theorem expand_order_independent (segs : list segment) (context context' : dict) :
  forallb seg_ok segs = true ->
  forallb item_ok context = true ->
  NoDup (keys context) ->
  Permutation context context' ->
  expand_filename_template (template_of segs) context
  = expand_filename_template (template_of segs) context'.
Proof.
  intros Hs Hc Hnd Hp.
  rewrite !expand_template_of; try assumption.
  - apply flat_map_ext. intros [text|name]; cbn [seg_subst]; [reflexivity|].
    rewrite (dict_get_perm name Hnd Hp). reflexivity.
  - eapply forallb_perm; eassumption.
Qed.

Lemma expand_order_independent_witness :
  let segs := [Lit (py "Dokument_"); Tok (py "Nachname"); Lit (py "_"); Tok (py "Vorname")] in
  let c1 := [(py "Vorname", VStr (py "Anna")); (py "Nachname", VStr (py "Muster"))] in
  let c2 := [(py "Nachname", VStr (py "Muster")); (py "Vorname", VStr (py "Anna"))] in
  template_of segs = py "Dokument_{Nachname}_{Vorname}" /\
  expand_filename_template (template_of segs) c1
  = expand_filename_template (template_of segs) c2.
Proof.
  cbv zeta. split; [reflexivity|].
  apply expand_order_independent.
  - reflexivity.
  - reflexivity.
  - repeat constructor; simpl; intuition discriminate.
  - apply perm_swap.
Defined.

(** C5, as stated, fails where braces stand inside a column name or
    inside the token's name: the token is then part of, or holds, the
    placeholder of a key and goes with it. *)
Lemma unknown_token_consumed :
  (let context := [(py "n}{m", VStr (py "V"))] in
   contains (placeholder (py "n")) (py "{n}{m}") = true /\
   ~ In (py "n") (keys context) /\
   expand_filename_template (py "{n}{m}") context = py "V" /\
   contains (placeholder (py "n"))
     (expand_filename_template (py "{n}{m}") context) = false)
  /\
  (let context := [(py "a", VStr (py "1"))] in
   contains (placeholder (py "{a}x")) (py "{{a}x}") = true /\
   ~ In (py "{a}x") (keys context) /\
   expand_filename_template (py "{{a}x}") context = py "{1x}" /\
   contains (placeholder (py "{a}x"))
     (expand_filename_template (py "{{a}x}") context) = false).
Proof.
  cbv zeta. repeat split; try reflexivity; simpl; intuition discriminate.
Qed.

(** C5 (amended): when neither the token's name nor any key of the
    context has a brace in it, a token [{name}] whose name is no key of
    the context stays where it is, verbatim; the text before it and the
    text after it are expanded as they would be alone.  No error is raised:
    the expander is a total function. *)
Theorem unknown_token_verbatim (pre name post : str) (context : dict) :
  brace_free name = true ->
  forallb brace_free (keys context) = true ->
  ~ In name (keys context) ->
  expand_filename_template (pre ++ placeholder name ++ post) context
  = expand_filename_template pre context ++ placeholder name
    ++ expand_filename_template post context.
Proof.
  intros Hn. revert pre post.
  induction context as [|[key v] context IH]; intros pre post Hk Hnot; [reflexivity|].
  simpl in Hk. apply andb_true_iff in Hk as [Hkey Hk].
  simpl in Hnot.
  unfold expand_filename_template. cbn [fold_left].
  rewrite !expand_step_replace.
  rewrite replace_other_token; [|assumption|assumption|tauto].
  apply IH; [exact Hk | tauto].
Qed.

Lemma unknown_token_verbatim_witness :
  expand_filename_template (py "A_{missing}") [(py "x", VStr (py "1"))]
  = py "A_{missing}".
Proof.
  apply (@unknown_token_verbatim (py "A_") (py "missing") [] [(py "x", VStr (py "1"))]).
  - reflexivity.
  - reflexivity.
  - simpl. intros [H|[]]. discriminate H.
Defined.

(** *** Every occurrence is replaced *)

Lemma join_cons (sep x : str) (rest : list str) :
  rest <> [] -> join sep (x :: rest) = x ++ sep ++ join sep rest.
Proof. destruct rest; [contradiction | reflexivity]. Qed.

Lemma join_push (sep : str) (c : char) (x : str) (rest : list str) :
  join sep ((c :: x) :: rest) = c :: join sep (x :: rest).
Proof. destruct rest; reflexivity. Qed.

Lemma join_head (sep x : str) (rest : list str) :
  exists more, join sep (x :: rest) = x ++ more.
Proof.
  destruct rest as [|y rest].
  - exists []. simpl. symmetry; apply app_nil_r.
  - eexists. reflexivity.
Qed.

(** [replace] cuts the string at occurrences of [old], leaves pieces in
    which [old] does not occur, and puts [new] where it cut. *)
Lemma replace_pieces (old new s : str) :
  old <> [] ->
  exists pieces,
    pieces <> [] /\
    s = join old pieces /\
    Forall (fun x => contains old x = false) pieces /\
    replace old new s = join new pieces.
Proof.
  intros Hold. destruct old as [|c0 q]; [contradiction|].
  unfold replace. pattern s. apply (@scan_ind (c0 :: q)); [exact Hold | | |].
  - exists [[]]. repeat split; [discriminate|]. constructor; [reflexivity | constructor].
  - intros r (pieces & Hne & Hr & Hfree & Hrep).
    exists ([] :: pieces). split; [discriminate|]. split; [|split].
    + rewrite join_cons by exact Hne. rewrite <- Hr. reflexivity.
    + constructor; [reflexivity | exact Hfree].
    + rewrite scan_hit, Hrep, join_cons by exact Hne. reflexivity.
  - intros c r Hmiss (pieces & Hne & Hr & Hfree & Hrep).
    destruct pieces as [|x rest]; [contradiction|].
    exists ((c :: x) :: rest). split; [discriminate|]. split; [|split].
    + rewrite join_push, <- Hr. reflexivity.
    + inversion Hfree as [|? ? Hx Hrest]; subst. constructor; [|exact Hrest].
      cbn [contains]. rewrite Hx, orb_false_r.
      destruct (startswith (c0 :: q) (c :: x)) eqn:E; [|reflexivity].
      destruct (join_head (c0 :: q) x rest) as [more Hmore].
      rewrite Hmore in Hmiss.
      apply (@startswith_app_l _ _ more) in E.
      cbn [app] in E. rewrite E in Hmiss. discriminate.
    + rewrite scan_miss by exact Hmiss. rewrite Hrep, join_push. reflexivity.
Qed.

(** The token of a key without braces is replaced where it stands. *)
Lemma replace_own_token (k new pre post : str) :
  brace_free k = true ->
  replace (placeholder k) new (pre ++ placeholder k ++ post)
  = replace (placeholder k) new pre ++ new ++ replace (placeholder k) new post.
Proof.
  intros Hk.
  change (replace (placeholder k) new) with (replace_scan (lbrace :: k ++ [rbrace]) new 0).
  change (placeholder k ++ post) with (lbrace :: ((k ++ [rbrace]) ++ post)).
  rewrite scan_open by (apply not_open_tail; exact Hk). f_equal.
  change (lbrace :: (k ++ [rbrace]) ++ post) with ((lbrace :: k ++ [rbrace]) ++ post).
  apply scan_hit.
Qed.

(** The token of a name that is no key goes through the loop untouched. *)
Lemma expand_keeps_token (pre name post : str) (context : dict) :
  brace_free name = true ->
  forallb brace_free (keys context) = true ->
  ~ In name (keys context) ->
  expand_filename_template (pre ++ placeholder name ++ post) context
  = expand_filename_template pre context ++ placeholder name
    ++ expand_filename_template post context.
Proof.
  intros Hn. revert pre post.
  induction context as [|[key v] context IH]; intros pre post Hk Hnot; [reflexivity|].
  simpl in Hk. apply andb_true_iff in Hk as [Hkey Hk]. simpl in Hnot.
  unfold expand_filename_template. cbn [fold_left].
  rewrite !expand_step_replace.
  rewrite replace_other_token; [|assumption|assumption|tauto].
  apply IH; [exact Hk | tauto].
Qed.

Lemma expand_one (t key : str) (v : value) :
  expand_filename_template t [(key, v)] = replace (placeholder key) (str_of v) t.
Proof. apply expand_step_replace. Qed.

(** C6, as stated, fails where a key has a brace in it: the token of the
    key [{a}] is taken apart by the key [a] before its turn comes, and of
    the two occurrences of the token of the key [}{] that lie across each
    other only the first is replaced. *)
Lemma occurrence_not_replaced :
  (let context := [(py "a", VStr (py "1")); (py "{a}", VStr (py "Z"))] in
   contains (placeholder (py "{a}")) (py "{{a}}") = true /\
   dict_get (py "{a}") context = Some (VStr (py "Z")) /\
   expand_filename_template (py "{{a}}") context = py "{1}" /\
   contains (py "Z") (expand_filename_template (py "{{a}}") context) = false)
  /\
  (let context := [(py "}{", VStr (py "V"))] in
   startswith (placeholder (py "}{")) (py "{}{}{}") = true /\
   startswith (placeholder (py "}{")) (py "{}{}") = true /\
   expand_filename_template (py "{}{}{}") context = py "V{}" /\
   expand_filename_template (py "{}{}{}") context <> py "VV" /\
   contains (py "{}") (expand_filename_template (py "{}{}{}") context) = true).
Proof. cbv zeta. repeat split; try reflexivity. vm_compute. discriminate. Qed.

(** C6 (amended): when the key and the keys the loop meets before it
    have no brace in them, every occurrence of [{key}] in the template is
    replaced by the key's value as a string when the loop comes to the
    key, the text before and after the occurrence being expanded up to
    there as it would be alone; the keys after it go on from this result.
    With x = "1" and y = "2", "A_{x}_{y}" gives "A_1_2". *)
Theorem expand_replaces_in_template (pre key post : str) (v : value)
    (before after : dict) :
  brace_free key = true ->
  forallb brace_free (keys before) = true ->
  ~ In key (keys before) ->
  expand_filename_template (pre ++ placeholder key ++ post)
    (before ++ (key, v) :: after)
  = expand_filename_template
      (expand_filename_template pre (before ++ [(key, v)])
       ++ str_of v
       ++ expand_filename_template post (before ++ [(key, v)]))
      after.
Proof.
  intros Hkey Hbefore Hnot.
  change (before ++ (key, v) :: after) with (before ++ [(key, v)] ++ after).
  rewrite (expand_app (pre ++ placeholder key ++ post) before ([(key, v)] ++ after)).
  rewrite (expand_app _ [(key, v)] after). f_equal.
  rewrite (expand_app pre before [(key, v)]), (expand_app post before [(key, v)]).
  rewrite (@expand_keeps_token pre key post before Hkey Hbefore Hnot).
  rewrite !expand_one. apply replace_own_token, Hkey.
Qed.

Lemma expand_replaces_in_template_witness :
  expand_filename_template (py "A_{x}_{y}")
    [(py "x", VStr (py "1")); (py "y", VStr (py "2"))]
  = py "A_1_2".
Proof.
  apply (@expand_replaces_in_template (py "A_") (py "x") (py "_{y}") (VStr (py "1"))
           [] [(py "y", VStr (py "2"))]).
  - reflexivity.
  - reflexivity.
  - intros [].
Defined.

(** X18: whatever the keys are, when the loop comes to a key the working
    string (the template itself for the first key) is cut at occurrences
    of [{key}] into pieces that hold no further occurrence, and the loop
    goes on from the pieces joined by the key's value as a string.  In
    particular "A_{x}_{y}" with x = "1" and y = "2" gives "A_1_2". *)
Theorem expand_replaces_every_occurrence :
  (forall (template_str : str) (before : dict) (key : str) (v : value) (after : dict),
     exists pieces,
       expand_filename_template template_str before = join (placeholder key) pieces /\
       Forall (fun x => contains (placeholder key) x = false) pieces /\
       expand_filename_template template_str (before ++ (key, v) :: after)
       = expand_filename_template (join (str_of v) pieces) after)
  /\
  expand_filename_template (py "A_{x}_{y}")
    [(py "x", VStr (py "1")); (py "y", VStr (py "2"))]
  = py "A_1_2".
Proof.
  split; [|reflexivity].
  intros t before key v after.
  destruct (@replace_pieces (placeholder key) (str_of v)
              (expand_filename_template t before)) as (pieces & _ & Hcut & Hfree & Hrep).
  { discriminate. }
  exists pieces. split; [exact Hcut|]. split; [exact Hfree|].
  rewrite expand_app. unfold expand_filename_template at 1. cbn [fold_left].
  rewrite expand_step_replace, Hrep. reflexivity.
Qed.

(** ** Whitespace *)

Lemma lstrip_blank (s : str) : forallb isspace s = true -> lstrip s = [].
Proof.
  induction s as [|c s IH]; simpl; [reflexivity|].
  intros H. apply andb_true_iff in H as [Hc Hs]. rewrite Hc. apply IH, Hs.
Qed.

Lemma strip_blank (s : str) : forallb isspace s = true -> py_not (strip s) = true.
Proof.
  intros H. unfold strip, rstrip. rewrite (lstrip_blank _ H). reflexivity.
Qed.

Lemma lstrip_nil (s : str) : lstrip s = [] -> forallb isspace s = true.
Proof.
  induction s as [|c s IH]; simpl; [reflexivity|].
  destruct (isspace c); [exact IH | discriminate].
Qed.

Lemma lstrip_isspace (s : str) : forallb isspace (lstrip s) = forallb isspace s.
Proof.
  induction s as [|c s IH]; simpl; [reflexivity|].
  destruct (isspace c) eqn:E; simpl; [exact IH | rewrite E; reflexivity].
Qed.

Lemma forallb_rev_eq {A} (f : A -> bool) (l : list A) :
  forallb f (rev l) = forallb f l.
Proof.
  induction l as [|x l IH]; [reflexivity|].
  simpl. rewrite forallb_app, IH. simpl. rewrite andb_true_r. apply andb_comm.
Qed.

(** [not s.strip()] holds exactly for the strings of whitespace. *)
Lemma strip_test (s : str) : py_not (strip s) = forallb isspace s.
Proof.
  destruct (forallb isspace s) eqn:E; [apply strip_blank, E|].
  destruct (strip s) eqn:S; [|reflexivity].
  unfold strip, rstrip in S.
  assert (R : lstrip (rev (lstrip s)) = []).
  { rewrite <- (rev_involutive (lstrip (rev (lstrip s)))), S. reflexivity. }
  apply lstrip_nil in R. rewrite forallb_rev_eq, lstrip_isspace in R. congruence.
Qed.

Lemma py_inj (a b : string) : py a = py b -> a = b.
Proof.
  unfold py. intros H.
  rewrite <- (string_of_list_ascii_of_string a), <- (string_of_list_ascii_of_string b).
  f_equal. revert H.
  generalize (list_ascii_of_string a) (list_ascii_of_string b).
  induction l as [|x l IH]; intros [|y l'] H; simpl in H; try discriminate; [reflexivity|].
  injection H as Hxy Hl. f_equal; [|apply IH, Hl].
  rewrite <- (ascii_N_embedding x), <- (ascii_N_embedding y), Hxy. reflexivity.
Qed.

Lemma str_of_nat_inj (i j : nat) : str_of_nat i = str_of_nat j -> i = j.
Proof.
  unfold str_of_nat. intros H. apply py_inj in H.
  assert (E : Some (Nat.to_uint i) = Some (Nat.to_uint j)).
  { rewrite <- !NilEmpty.usu, H. reflexivity. }
  injection E as E. rewrite <- (Unsigned.of_to i), <- (Unsigned.of_to j), E. reflexivity.
Qed.

(** ** Reading the trace *)

Lemma downloads_app (a b : list event) : downloads (a ++ b) = downloads a ++ downloads b.
Proof. induction a as [|[] a IH]; simpl; rewrite ?IH; reflexivity. Qed.

Lemma successes_app (a b : list event) : successes (a ++ b) = successes a ++ successes b.
Proof. induction a as [|[] a IH]; simpl; rewrite ?IH; reflexivity. Qed.

Lemma warnings_app (a b : list event) : warnings (a ++ b) = warnings a ++ warnings b.
Proof. induction a as [|[] a IH]; simpl; rewrite ?IH; reflexivity. Qed.

Lemma errors_app (a b : list event) : errors (a ++ b) = errors a ++ errors b.
Proof. induction a as [|[] a IH]; simpl; rewrite ?IH; reflexivity. Qed.

Lemma csv_reads_app (a b : list event) : csv_reads (a ++ b) = csv_reads a ++ csv_reads b.
Proof. induction a as [|[] a IH]; simpl; rewrite ?IH; reflexivity. Qed.

Lemma rendered_app (a b : list event) : rendered (a ++ b) = rendered a ++ rendered b.
Proof. induction a as [|[] a IH]; simpl; rewrite ?IH; reflexivity. Qed.

Lemma written_app (a b : list event) : written (a ++ b) = written a ++ written b.
Proof. induction a as [|[] a IH]; simpl; rewrite ?IH; reflexivity. Qed.

Section Trace.

Variable docx_render : bytes -> dict -> bytes + exn.
Variable zip_name : str -> str + exn.
Variables (template : bytes) (name_template : str) (cols : list str).

Let events := row_events docx_render template name_template cols.
Let entry := row_entry docx_render zip_name template name_template cols.
Let ok := row_ok docx_render zip_name template name_template cols.

Lemma quiet_rows (items : list (label * list value)) :
  downloads (flat_map events items) = [] /\
  successes (flat_map events items) = [] /\
  warnings (flat_map events items) = [] /\
  errors (flat_map events items) = [] /\
  csv_reads (flat_map events items) = [].
Proof. induction items as [|it items IH]; simpl; auto. Qed.

Lemma downloads_rows (items : list (label * list value)) :
  downloads (flat_map events items) = [].
Proof. apply quiet_rows. Qed.

Lemma successes_rows (items : list (label * list value)) :
  successes (flat_map events items) = [].
Proof. apply quiet_rows. Qed.

Lemma rendered_rows (items : list (label * list value)) :
  rendered (flat_map events items) = map (to_dict cols) (map snd items).
Proof. induction items as [|it items IH]; simpl; [|rewrite IH]; reflexivity. Qed.

Lemma written_rows (items : list (label * list value)) :
  written (flat_map events items)
  = map (fun it => (row_name name_template cols it,
                    docx_bytes_of docx_render template (to_dict cols (snd it)))) items.
Proof. induction items as [|it items IH]; simpl; [|rewrite IH]; reflexivity. Qed.

(** *** One row *)

Lemma process_row_ok (item : label * list value) (s : state) :
  ok item = true ->
  process_row docx_render zip_name template name_template cols item s
  = (Returned tt, mkState (trace s ++ events item) (zip_buffer s ++ [entry item])).
Proof.
  destruct item as [index row]. unfold ok, row_ok, render_ok, write_ok, row_name.
  cbn [fst snd]. intros H. apply andb_true_iff in H as [Hr Hw].
  unfold process_row, generate_doc, writestr, bind, emit, store, ret, events, entry,
    row_events, row_entry, docx_bytes_of, stored_name, row_name.
  cbn [fst snd trace zip_buffer].
  destruct (docx_render template (to_dict cols row)) as [b|]; [|discriminate].
  cbn [trace zip_buffer].
  destruct (zip_name (docx_filename name_template index (to_dict cols row)));
    [|discriminate].
  cbn [trace zip_buffer]. rewrite <- app_assoc. reflexivity.
Qed.

Lemma process_row_render_fails (item : label * list value) (e : exn) (s : state) :
  docx_render template (to_dict cols (snd item)) = inr e ->
  process_row docx_render zip_name template name_template cols item s
  = (Raised e,
     mkState (trace s ++ [GenerateDoc template (to_dict cols (snd item))])
       (zip_buffer s)).
Proof.
  destruct item as [index row]. cbn [snd]. intros H.
  unfold process_row, generate_doc, bind, emit, raise. cbn [trace zip_buffer].
  rewrite H. reflexivity.
Qed.

Lemma process_row_write_fails (item : label * list value) (e : exn) (s : state) :
  render_ok docx_render template cols (snd item) = true ->
  zip_name (row_name name_template cols item) = inr e ->
  process_row docx_render zip_name template name_template cols item s
  = (Raised e, mkState (trace s ++ events item) (zip_buffer s)).
Proof.
  destruct item as [index row]. unfold render_ok, row_name. cbn [fst snd].
  intros Hr Hw.
  unfold process_row, generate_doc, writestr, bind, emit, raise, ret, events,
    row_events, docx_bytes_of, row_name.
  cbn [fst snd trace zip_buffer].
  destruct (docx_render template (to_dict cols row)) as [b|]; [|discriminate].
  cbn [trace zip_buffer]. rewrite Hw. cbn [trace zip_buffer].
  rewrite <- app_assoc. reflexivity.
Qed.

(** *** The loop *)

Lemma loop_ok (items : list (label * list value)) (s : state) :
  forallb ok items = true ->
  for_each items (process_row docx_render zip_name template name_template cols) s
  = (Returned tt,
     mkState (trace s ++ flat_map events items) (zip_buffer s ++ map entry items)).
Proof.
  revert s. induction items as [|it items IH]; intros s H.
  - simpl. rewrite !app_nil_r. destruct s; reflexivity.
  - simpl in H. apply andb_true_iff in H as [Hit H].
    cbn [for_each]. unfold bind. rewrite (@process_row_ok it s Hit).
    rewrite IH by exact H. cbn [trace zip_buffer flat_map map].
    rewrite <- !app_assoc. reflexivity.
Qed.

(** The loop up to a row that raises: the rows before it are done, and
    the run is left as the row leaves it. *)
Lemma loop_stops (done : list (label * list value)) (item : label * list value)
    (rest : list (label * list value)) (e : exn) (t : list event) (s : state) :
  forallb ok done = true ->
  (forall s',
      process_row docx_render zip_name template name_template cols item s'
      = (Raised e, mkState (trace s' ++ t) (zip_buffer s'))) ->
  for_each (done ++ item :: rest)
    (process_row docx_render zip_name template name_template cols) s
  = (Raised e,
     mkState (trace s ++ flat_map events done ++ t) (zip_buffer s ++ map entry done)).
Proof.
  revert s. induction done as [|it done IH]; intros s H Hitem.
  - cbn [app for_each]. unfold bind. rewrite Hitem.
    simpl. rewrite app_nil_r. reflexivity.
  - simpl in H. apply andb_true_iff in H as [Hit H].
    cbn [app for_each]. unfold bind. rewrite (@process_row_ok it s Hit).
    rewrite IH by assumption. cbn [trace zip_buffer flat_map map].
    rewrite <- !app_assoc. reflexivity.
Qed.

(** Either every row goes through, or there is a first row that does
    not: its rendering raises, or it renders and its write raises. *)
Lemma items_split (items : list (label * list value)) :
  forallb ok items = true \/
  exists done item rest e,
    items = done ++ item :: rest /\
    forallb ok done = true /\
    (docx_render template (to_dict cols (snd item)) = inr e \/
     render_ok docx_render template cols (snd item) = true /\
     zip_name (row_name name_template cols item) = inr e).
Proof.
  induction items as [|it items IH]; [left; reflexivity|].
  destruct (ok it) eqn:E.
  - destruct IH as [IH | (done & item & rest & e & -> & Hd & He)].
    + left. cbn [forallb]. rewrite E. exact IH.
    + right. exists (it :: done), item, rest, e. repeat split; [|exact He].
      cbn [forallb]. rewrite E. exact Hd.
  - right. unfold ok, row_ok, render_ok, write_ok in E.
    destruct (docx_render template (to_dict cols (snd it))) as [b|e] eqn:R.
    + destruct (zip_name (row_name name_template cols it)) as [f|e] eqn:W;
        [discriminate|].
      exists [], it, items, e. repeat split. right. split; [|exact W].
      unfold render_ok. rewrite R. reflexivity.
    + exists [], it, items, e. repeat split. left. exact R.
Qed.

Lemma row_ok_renders (item : label * list value) :
  ok item = true -> exists b, docx_render template (to_dict cols (snd item)) = inl b.
Proof.
  unfold ok, row_ok, render_ok. intros H. apply andb_true_iff in H as [H _].
  destruct (docx_render template (to_dict cols (snd item))) as [b|]; [|discriminate].
  exists b. reflexivity.
Qed.

Lemma row_ok_stored (item : label * list value) :
  ok item = true ->
  zip_name (row_name name_template cols item)
  = inl (stored_name zip_name (row_name name_template cols item)).
Proof.
  unfold ok, row_ok, write_ok, stored_name. intros H.
  apply andb_true_iff in H as [_ H].
  destruct (zip_name (row_name name_template cols item)); [reflexivity | discriminate].
Qed.

End Trace.

(** ** The batch *)

Section Run.

Variable read_csv : bytes -> DataFrame + exn.
Variable docx_render : bytes -> dict -> bytes + exn.
Variable zip_name : str -> str + exn.
Variables (template csv : bytes) (name_template : str).

Let inp := pressed (Some template) (Some csv) name_template.

Lemma run_parse_error (e : exn) :
  read_csv csv = inr e ->
  run read_csv docx_render zip_name inp
  = (Returned tt, mkState [ReadCsv csv; StError (error_text e)] []).
Proof.
  intros H. unfold run, main, inp, pressed. cbn [button uploaded_template csv_file].
  unfold bind, emit. cbn [trace zip_buffer]. rewrite H. reflexivity.
Qed.

Lemma run_ok (data : DataFrame) :
  read_csv csv = inl data ->
  forallb (row_ok docx_render zip_name template name_template (columns data))
    (iterrows data) = true ->
  let entries :=
    map (row_entry docx_render zip_name template name_template (columns data))
      (iterrows data) in
  run read_csv docx_render zip_name inp
  = (Returned tt,
     mkState
       (ReadCsv csv
        :: flat_map (row_events docx_render template name_template (columns data))
             (iterrows data)
        ++ [StSuccess success_text; download_button entries])
       entries).
Proof.
  intros Hcsv Hok entries.
  unfold run, main, inp, pressed. cbn [button uploaded_template csv_file].
  unfold bind at 1. unfold emit at 1. cbn [trace zip_buffer].
  rewrite Hcsv. cbn [filename_template].
  unfold bind at 1. unfold new_zip. cbn [trace zip_buffer].
  unfold bind at 1. rewrite loop_ok by exact Hok.
  cbn [trace zip_buffer app].
  unfold bind, emit, getvalue. cbn [trace zip_buffer app].
  rewrite <- !app_assoc. reflexivity.
Qed.

Lemma run_stops (data : DataFrame) (done : list (label * list value))
    (item : label * list value) (rest : list (label * list value))
    (e : exn) (t : list event) :
  read_csv csv = inl data ->
  iterrows data = done ++ item :: rest ->
  forallb (row_ok docx_render zip_name template name_template (columns data))
    done = true ->
  (forall s',
      process_row docx_render zip_name template name_template (columns data) item s'
      = (Raised e, mkState (trace s' ++ t) (zip_buffer s'))) ->
  run read_csv docx_render zip_name inp
  = (Raised e,
     mkState
       (ReadCsv csv
        :: flat_map (row_events docx_render template name_template (columns data))
             done
        ++ t)
       (map (row_entry docx_render zip_name template name_template (columns data))
          done)).
Proof.
  intros Hcsv Hrows Hok Hitem.
  unfold run, main, inp, pressed. cbn [button uploaded_template csv_file].
  unfold bind at 1. unfold emit at 1. cbn [trace zip_buffer].
  rewrite Hcsv. cbn [filename_template].
  unfold bind at 1. unfold new_zip. cbn [trace zip_buffer].
  unfold bind at 1. rewrite Hrows.
  rewrite (@loop_stops docx_render zip_name template name_template (columns data)
             done item rest e t _ Hok Hitem).
  reflexivity.
Qed.

Lemma run_render_fails (data : DataFrame) (done : list (label * list value))
    (item : label * list value) (rest : list (label * list value)) (e : exn) :
  read_csv csv = inl data ->
  iterrows data = done ++ item :: rest ->
  forallb (row_ok docx_render zip_name template name_template (columns data))
    done = true ->
  docx_render template (to_dict (columns data) (snd item)) = inr e ->
  run read_csv docx_render zip_name inp
  = (Raised e,
     mkState
       (ReadCsv csv
        :: flat_map (row_events docx_render template name_template (columns data))
             done
        ++ [GenerateDoc template (to_dict (columns data) (snd item))])
       (map (row_entry docx_render zip_name template name_template (columns data))
          done)).
Proof.
  intros Hcsv Hrows Hok He.
  apply (@run_stops data done item rest e _ Hcsv Hrows Hok).
  intros s'. apply process_row_render_fails, He.
Qed.

Lemma run_write_fails (data : DataFrame) (done : list (label * list value))
    (item : label * list value) (rest : list (label * list value)) (e : exn) :
  read_csv csv = inl data ->
  iterrows data = done ++ item :: rest ->
  forallb (row_ok docx_render zip_name template name_template (columns data))
    done = true ->
  render_ok docx_render template (columns data) (snd item) = true ->
  zip_name (row_name name_template (columns data) item) = inr e ->
  run read_csv docx_render zip_name inp
  = (Raised e,
     mkState
       (ReadCsv csv
        :: flat_map (row_events docx_render template name_template (columns data))
             (done ++ [item]))
       (map (row_entry docx_render zip_name template name_template (columns data))
          done)).
Proof.
  intros Hcsv Hrows Hok Hr Hw.
  rewrite flat_map_app. cbn [flat_map]. rewrite app_nil_r.
  apply (@run_stops data done item rest e _ Hcsv Hrows Hok).
  intros s'. apply process_row_write_fails; assumption.
Qed.

End Run.

Section Cases.

Variable read_csv : bytes -> DataFrame + exn.
Variable docx_render : bytes -> dict -> bytes + exn.
Variable zip_name : str -> str + exn.

Lemma run_cases (inp : inputs) :
  run_shape read_csv docx_render zip_name inp (run read_csv docx_render zip_name inp).
Proof.
  destruct inp as [ut cf ft b].
  destruct b.
  2:{ apply ShapeIdle. reflexivity. }
  destruct ut as [template|].
  2:{ apply ShapeMissing; [reflexivity | left; reflexivity]. }
  destruct cf as [csv|].
  2:{ apply ShapeMissing; [reflexivity | right; reflexivity]. }
  change (mkInputs (Some template) (Some csv) ft true)
    with (pressed (Some template) (Some csv) ft).
  destruct (read_csv csv) as [data|e] eqn:Hcsv.
  - destruct (items_split docx_render zip_name template ft (columns data) (iterrows data))
      as [Hok | (done & item & rest & e & Hrows & Hd & [He | [Hr Hw]])].
    + rewrite (@run_ok read_csv docx_render zip_name template csv ft data Hcsv Hok).
      apply (@ShapeDone read_csv docx_render zip_name
               (pressed (Some template) (Some csv) ft) template csv data);
        [reflexivity | exact Hcsv | exact Hok].
    + rewrite (@run_render_fails read_csv docx_render zip_name template csv ft
                 data done item rest e Hcsv Hrows Hd He).
      apply (@ShapeRenderFailed read_csv docx_render zip_name
               (pressed (Some template) (Some csv) ft)
               template csv data done item rest e);
        [reflexivity | exact Hcsv | exact Hrows | exact Hd | exact He].
    + rewrite (@run_write_fails read_csv docx_render zip_name template csv ft
                 data done item rest e Hcsv Hrows Hd Hr Hw).
      apply (@ShapeWriteFailed read_csv docx_render zip_name
               (pressed (Some template) (Some csv) ft)
               template csv data done item rest e);
        [reflexivity | exact Hcsv | exact Hrows | exact Hd | exact Hr | exact Hw].
  - rewrite (@run_parse_error read_csv docx_render zip_name template csv ft e Hcsv).
    apply (@ShapeUnreadable read_csv docx_render zip_name
             (pressed (Some template) (Some csv) ft) template csv e);
      [reflexivity | exact Hcsv].
Qed.

End Cases.

(** *** Rows and their place *)

Lemma first_failure_before {A} (ok : A -> bool) (done' : list A) (item' : A)
    (rest' done : list A) (x : A) (rest : list A) :
  done' ++ item' :: rest' = done ++ x :: rest ->
  forallb ok done' = true -> ok x = false ->
  length done' <= length done.
Proof.
  revert done. induction done' as [|a d IH]; intros [|b done] E Hd Hx; simpl in *;
    try lia.
  - injection E as -> _. apply andb_true_iff in Hd as [Ha _]. congruence.
  - injection E as _ E. apply andb_true_iff in Hd as [_ Hd].
    apply le_n_S. eapply IH; eassumption.
Qed.

Lemma firstn_snoc {A} (a : list A) (x : A) (r : list A) :
  firstn (S (length a)) (a ++ x :: r) = a ++ [x].
Proof. induction a as [|h a IH]; [reflexivity|]. simpl. f_equal. exact IH. Qed.

Lemma firstn_exact {A} (a r : list A) : firstn (length a) (a ++ r) = a.
Proof. induction a as [|h a IH]; [destruct r; reflexivity|]. simpl. f_equal. exact IH. Qed.

Lemma same_twice_not_nodup {A} (l : list A) (i j : nat) (x : A) :
  i <> j -> nth_error l i = Some x -> nth_error l j = Some x -> ~ NoDup l.
Proof.
  intros Hij Hi Hj Hnd. apply Hij.
  apply (proj1 (NoDup_nth_error l) Hnd).
  - apply nth_error_Some. rewrite Hi. discriminate.
  - rewrite Hi, Hj. reflexivity.
Qed.

Section Claims.

Variable read_csv : bytes -> DataFrame + exn.
Variable docx_render : bytes -> dict -> bytes + exn.
Variable zip_name : str -> str + exn.

(** C1 (amended): when both files are there, the CSV parses to a frame of
    n rows, no row raises in rendering and no write to the archive raises,
    the run returns with exactly n entries in the archive, the i-th from
    the i-th row under the name the archive keeps for that row's filename,
    and offers just these for download.  The names are not made unique:
    two rows with the same filename give two entries of one name. *)
Theorem batch_one_entry_per_row (template csv : bytes) (name_template : str)
    (data : DataFrame) :
  read_csv csv = inl data ->
  forallb (row_ok docx_render zip_name template name_template (columns data))
    (iterrows data) = true ->
  let result :=
    run read_csv docx_render zip_name
      (pressed (Some template) (Some csv) name_template) in
  let entries := zip_buffer (snd result) in
  fst result = Returned tt /\
  downloads (trace (snd result)) = [entries] /\
  length entries = length (rows data) /\
  (forall i index row,
      nth_error (iterrows data) i = Some (index, row) ->
      exists filename,
        zip_name (docx_filename name_template index (to_dict (columns data) row))
        = inl filename /\
        nth_error entries i
        = Some (filename,
                docx_bytes_of docx_render template (to_dict (columns data) row))) /\
  (forall i j index_i row_i index_j row_j,
      i <> j ->
      nth_error (iterrows data) i = Some (index_i, row_i) ->
      nth_error (iterrows data) j = Some (index_j, row_j) ->
      docx_filename name_template index_i (to_dict (columns data) row_i)
      = docx_filename name_template index_j (to_dict (columns data) row_j) ->
      ~ NoDup (map fst entries)).
Proof.
  intros Hcsv Hok result entries. subst entries result.
  rewrite (@run_ok read_csv docx_render zip_name template csv name_template data Hcsv Hok).
  cbn [fst snd trace zip_buffer downloads].
  rewrite downloads_app, downloads_rows. cbn [downloads download_button app].
  split; [reflexivity|]. split; [reflexivity|].
  split; [unfold rows; rewrite !length_map; reflexivity|].
  assert (Hnth : forall i index row,
             nth_error (iterrows data) i = Some (index, row) ->
             nth_error
               (map (row_entry docx_render zip_name template name_template (columns data))
                  (iterrows data)) i
             = Some (stored_name zip_name
                       (docx_filename name_template index (to_dict (columns data) row)),
                     docx_bytes_of docx_render template (to_dict (columns data) row))).
  { intros i index row Hi. rewrite nth_error_map, Hi. reflexivity. }
  split.
  - intros i index row Hi. eexists. split; [|apply Hnth, Hi].
    rewrite forallb_forall in Hok.
    apply (@row_ok_stored docx_render zip_name template name_template (columns data)
             (index, row)).
    apply Hok. eapply nth_error_In, Hi.
  - intros i j index_i row_i index_j row_j Hij Hi Hj Hsame.
    apply (@same_twice_not_nodup _ _ i j
             (stored_name zip_name
                (docx_filename name_template index_i (to_dict (columns data) row_i))) Hij).
    + rewrite nth_error_map, (Hnth _ _ _ Hi). reflexivity.
    + rewrite nth_error_map, (Hnth _ _ _ Hj), Hsame. reflexivity.
Qed.

(** C2 (amended): when the expanded filename of the row at position i is
    empty or all whitespace, the fallback name is Eintrag_ followed by the
    row's index label as text, which is the position i where [read_csv]
    has numbered the rows; in a run in which no row raises, the row's
    document is handed to the archive under exactly Eintrag_<label>.docx
    and is the i-th entry of the archive offered. *)
Theorem fallback_entry_name (template csv : bytes) (name_template : str)
    (data : DataFrame) (i : nat) (index : label) (row : list value) :
  read_csv csv = inl data ->
  forallb (row_ok docx_render zip_name template name_template (columns data))
    (iterrows data) = true ->
  nth_error (iterrows data) i = Some (index, row) ->
  forallb isspace
    (expand_filename_template name_template (to_dict (columns data) row)) = true ->
  let result :=
    run read_csv docx_render zip_name
      (pressed (Some template) (Some csv) name_template) in
  let name := py "Eintrag_" ++ format_label index ++ py ".docx" in
  filename_prefix name_template index (to_dict (columns data) row)
  = py "Eintrag_" ++ format_label index /\
  option_map fst (nth_error (written (trace (snd result))) i) = Some name /\
  (exists entries filename,
      downloads (trace (snd result)) = [entries] /\
      zip_name name = inl filename /\
      option_map fst (nth_error entries i) = Some filename) /\
  (index = LPos i -> name = py "Eintrag_" ++ str_of_nat i ++ py ".docx").
Proof.
  intros Hcsv Hok Hrow Hblank result name. subst result.
  assert (Hp : filename_prefix name_template index (to_dict (columns data) row)
               = py "Eintrag_" ++ format_label index).
  { unfold filename_prefix. rewrite (strip_blank _ Hblank). reflexivity. }
  assert (Hname : row_name name_template (columns data) (index, row) = name).
  { unfold row_name, docx_filename. cbn [fst snd]. rewrite Hp, <- app_assoc. reflexivity. }
  split; [exact Hp|].
  rewrite (@run_ok read_csv docx_render zip_name template csv name_template data Hcsv Hok).
  cbn [snd trace written downloads].
  rewrite written_app, written_rows, downloads_app, downloads_rows.
  cbn [written downloads download_button app]. rewrite app_nil_r.
  split; [|split].
  - rewrite nth_error_map, Hrow. cbn [option_map fst]. rewrite Hname. reflexivity.
  - eexists. exists (stored_name zip_name name). split; [reflexivity|]. split.
    + rewrite <- Hname.
      apply (@row_ok_stored docx_render zip_name template name_template (columns data)).
      rewrite forallb_forall in Hok. apply Hok. eapply nth_error_In, Hrow.
    + rewrite nth_error_map, Hrow. cbn [option_map row_entry fst]. rewrite Hname.
      reflexivity.
  - intros ->. reflexivity.
Qed.

(** C7 (amended): when both files are there and the CSV parses to a frame
    with no rows, the run goes through: nothing is rendered, the success
    message is shown and not a warning, and an archive with no entry is
    offered for download. *)
Theorem empty_source_succeeds (template csv : bytes) (filename_template : str)
    (data : DataFrame) :
  read_csv csv = inl data ->
  rows data = [] ->
  run read_csv docx_render zip_name
    (pressed (Some template) (Some csv) filename_template)
  = (Returned tt,
     mkState [ReadCsv csv; StSuccess success_text; download_button []] []).
Proof.
  intros Hcsv Hrows. unfold rows in Hrows. apply map_eq_nil in Hrows.
  rewrite (@run_ok read_csv docx_render zip_name template csv filename_template data Hcsv).
  - rewrite Hrows. reflexivity.
  - rewrite Hrows. reflexivity.
Qed.

(** C8: when rendering raises for a row, the batch is given up: the run
    ends in an exception, with no success message and no download, so no
    archive, whole or partial, reaches the user, and [generate_doc] is
    called for no row after that one.  When the rows before it went
    through, the exception that leaves [main] is the one rendering raised
    for the row, [generate_doc] has been called for just the rows up to
    it, and the buffer holds the entries of the rows before it. *)
Theorem render_failure_aborts (template csv : bytes) (name_template : str)
    (data : DataFrame) (done : list (label * list value)) (index : label)
    (row : list value) (rest : list (label * list value)) (e : exn) :
  read_csv csv = inl data ->
  iterrows data = done ++ (index, row) :: rest ->
  docx_render template (to_dict (columns data) row) = inr e ->
  let result :=
    run read_csv docx_render zip_name
      (pressed (Some template) (Some csv) name_template) in
  (exists e', fst result = Raised e') /\
  downloads (trace (snd result)) = [] /\
  successes (trace (snd result)) = [] /\
  (exists k,
      k <= S (length done) /\
      rendered (trace (snd result))
      = map (to_dict (columns data)) (firstn k (rows data))) /\
  (forallb (row_ok docx_render zip_name template name_template (columns data))
     done = true ->
   fst result = Raised e /\
   rendered (trace (snd result))
   = map (to_dict (columns data)) (map snd done ++ [row]) /\
   length (zip_buffer (snd result)) = length done).
Proof.
  intros Hcsv Hrows He result. subst result.
  assert (Hbad : row_ok docx_render zip_name template name_template (columns data)
                   (index, row) = false).
  { unfold row_ok, render_ok. cbn [snd]. rewrite He. reflexivity. }
  assert (Hlast : forallb (row_ok docx_render zip_name template name_template
                             (columns data)) done = true ->
                  run read_csv docx_render zip_name
                    (pressed (Some template) (Some csv) name_template)
                  = (Raised e,
                     mkState
                       (ReadCsv csv
                        :: flat_map (row_events docx_render template name_template
                                       (columns data)) done
                        ++ [GenerateDoc template (to_dict (columns data) row)])
                       (map (row_entry docx_render zip_name template name_template
                               (columns data)) done))).
  { intros Hd.
    apply (@run_render_fails read_csv docx_render zip_name template csv name_template
             data done (index, row) rest e Hcsv Hrows Hd He). }
  assert (Hgen : exists e' done' item' rest' t,
             iterrows data = done' ++ item' :: rest' /\
             length done' <= length done /\
             rendered t = [to_dict (columns data) (snd item')] /\
             downloads t = [] /\ successes t = [] /\
             run read_csv docx_render zip_name
               (pressed (Some template) (Some csv) name_template)
             = (Raised e',
                mkState
                  (ReadCsv csv
                   :: flat_map (row_events docx_render template name_template
                                  (columns data)) done'
                   ++ t)
                  (map (row_entry docx_render zip_name template name_template
                          (columns data)) done'))).
  { destruct (items_split docx_render zip_name template name_template (columns data)
                (iterrows data))
      as [Hok | (done' & item' & rest' & e' & Hsplit & Hd & [Hr | [Hr Hw]])].
    - rewrite forallb_forall in Hok.
      rewrite Hok in Hbad; [discriminate|]. rewrite Hrows. apply in_elt.
    - exists e', done', item', rest', [GenerateDoc template (to_dict (columns data) (snd item'))].
      repeat split.
      + exact Hsplit.
      + eapply first_failure_before; [|exact Hd | exact Hbad].
        rewrite <- Hsplit. exact Hrows.
      + apply (@run_render_fails read_csv docx_render zip_name template csv name_template
                 data done' item' rest' e' Hcsv Hsplit Hd Hr).
    - exists e', done', item', rest',
        (row_events docx_render template name_template (columns data) item').
      repeat split.
      + exact Hsplit.
      + eapply first_failure_before; [|exact Hd | exact Hbad].
        rewrite <- Hsplit. exact Hrows.
      + rewrite (@run_write_fails read_csv docx_render zip_name template csv name_template
                   data done' item' rest' e' Hcsv Hsplit Hd Hr Hw).
        rewrite flat_map_app. cbn [flat_map]. rewrite app_nil_r. reflexivity. }
  destruct Hgen as (e' & done' & item' & rest' & t & Hsplit & Hlen & Ht & Hdl & Hsu & Hrun).
  split; [|split; [|split; [|split]]].
  - exists e'. rewrite Hrun. reflexivity.
  - rewrite Hrun. cbn [snd trace downloads].
    rewrite !downloads_app, downloads_rows, Hdl. reflexivity.
  - rewrite Hrun. cbn [snd trace successes].
    rewrite !successes_app, successes_rows, Hsu. reflexivity.
  - exists (S (length done')). split; [lia|].
    rewrite Hrun. cbn [snd trace rendered].
    rewrite !rendered_app, rendered_rows, Ht.
    unfold rows. rewrite Hsplit, map_app. cbn [map].
    rewrite <- (length_map snd done'), firstn_snoc, map_app. reflexivity.
  - intros Hd. rewrite (Hlast Hd). cbn [fst snd trace zip_buffer rendered].
    rewrite rendered_app, rendered_rows, length_map, map_app. repeat split.
Qed.

(** C9: when the button is pressed and the template or the CSV file is
    not there, the run returns without an exception; all it has done is
    show the warning: the CSV was not read, no row was rendered and no
    archive is offered. *)
Theorem missing_input_warns (inp : inputs) :
  button inp = true ->
  uploaded_template inp = None \/ csv_file inp = None ->
  run read_csv docx_render zip_name inp
  = (Returned tt, mkState [StWarning warning_text] []) /\
  csv_reads (trace (snd (run read_csv docx_render zip_name inp))) = [] /\
  rendered (trace (snd (run read_csv docx_render zip_name inp))) = [] /\
  downloads (trace (snd (run read_csv docx_render zip_name inp))) = [].
Proof.
  intros Hb Hmiss.
  assert (H : run read_csv docx_render zip_name inp
              = (Returned tt, mkState [StWarning warning_text] [])).
  { unfold run, main. rewrite Hb.
    destruct Hmiss as [-> | ->]; [reflexivity|].
    destruct (uploaded_template inp); reflexivity. }
  rewrite H. repeat split.
Qed.

End Claims.

(** C1, as stated, fails: two rows whose expanded filenames agree are
    stored under the same name; and with a filename one byte too long
    for a ZIP file header the first write raises though every row
    renders, and no entry is stored at all. *)
Lemma batch_names_repeat :
  (let result :=
     run (csv_of same_name_rows) echo_render zipfile_name
       (pressed (Some [80%N; 75%N]) (Some [86%N]) (py "Dokument_{Nachname}")) in
   forallb (render_ok echo_render [80%N; 75%N] (columns same_name_rows))
     (rows same_name_rows) = true /\
   fst result = Returned tt /\
   downloads (trace (snd result)) = [zip_buffer (snd result)] /\
   map fst (zip_buffer (snd result))
   = [py "Dokument_Muster.docx"; py "Dokument_Muster.docx"] /\
   ~ NoDup (map fst (zip_buffer (snd result))))
  /\
  (let result :=
     run (csv_of two_rows) echo_render zipfile_name
       (pressed (Some [80%N; 75%N]) (Some [86%N]) long_template) in
   forallb (render_ok echo_render [80%N; 75%N] (columns two_rows))
     (rows two_rows) = true /\
   (fst result, zip_buffer (snd result), downloads (trace (snd result)))
   = (Raised (py "ushort format requires 0 <= number <= 65535"), [], [])).
Proof.
  cbv zeta. split.
  - repeat split.
    intros H. vm_compute in H. inversion H as [|x l Hin _]. apply Hin. left; reflexivity.
  - split; [reflexivity|].
    pose (item := (LPos 0, [VStr (py "Anna"); VStr (py "Muster")])).
    assert (Hn : row_name long_template (columns two_rows) item
                 = long_template ++ py ".docx").
    { unfold row_name, docx_filename, filename_prefix. rewrite strip_test.
      vm_compute. reflexivity. }
    assert (Hw : zipfile_name (row_name long_template (columns two_rows) item)
                 = inr (py "ushort format requires 0 <= number <= 65535")).
    { rewrite Hn. vm_compute. reflexivity. }
    match goal with
    | |- (fst ?r, _, _) = _ =>
        rewrite (@run_write_fails (csv_of two_rows) echo_render zipfile_name
                   [80%N; 75%N] [86%N] long_template two_rows [] item
                   [(LPos 1, [VStr (py "Bob"); VStr (py "Meier")])]
                   (py "ushort format requires 0 <= number <= 65535")
                   eq_refl eq_refl eq_refl eq_refl Hw
                 : r = _)
    end.
    cbn [fst snd trace zip_buffer map downloads].
    rewrite downloads_rows. reflexivity.
Qed.

Lemma batch_one_entry_per_row_witness :
  let result :=
    run (csv_of two_rows) echo_render zipfile_name
      (pressed (Some [80%N; 75%N]) (Some [86%N]) (py "Dokument_{Nachname}_{Vorname}")) in
  map fst (zip_buffer (snd result))
  = [py "Dokument_Muster_Anna.docx"; py "Dokument_Meier_Bob.docx"] /\
  fst result = Returned tt /\
  downloads (trace (snd result)) = [zip_buffer (snd result)] /\
  length (zip_buffer (snd result)) = length (rows two_rows).
Proof.
  cbv zeta. split; [reflexivity|].
  destruct (@batch_one_entry_per_row (csv_of two_rows) echo_render zipfile_name
              [80%N; 75%N] [86%N] (py "Dokument_{Nachname}_{Vorname}") two_rows
              eq_refl eq_refl) as (H1 & H2 & H3 & _).
  split; [exact H1|]. split; [exact H2 | exact H3].
Defined.

(** C2, as stated, fails: what follows the fallback token is the row's
    index label, not its position.  In the frame [read_csv] makes of data
    lines that end in a delimiter the first row, at position 0, has the
    label Anna, and with a blank expanded filename its document is written
    as Eintrag_Anna.docx, which is not Entry_0.docx and not the name of
    any other token with 0 after it. *)
Lemma fallback_is_not_entry :
  let context := to_dict (columns labelled_rows) [VStr (py "Muster"); VNaN] in
  let result :=
    run (csv_of labelled_rows) echo_render zipfile_name
      (pressed (Some [80%N; 75%N]) (Some [86%N]) (py " ")) in
  nth_error (iterrows labelled_rows) 0
  = Some (LText (py "Anna"), [VStr (py "Muster"); VNaN]) /\
  forallb isspace (expand_filename_template (py " ") context) = true /\
  docx_filename (py " ") (LText (py "Anna")) context = py "Eintrag_Anna.docx" /\
  map fst (zip_buffer (snd result)) = [py "Eintrag_Anna.docx"; py "Eintrag_Bob.docx"] /\
  py "Eintrag_Anna.docx" <> py "Entry_0.docx" /\
  (forall token : str, py "Eintrag_Anna.docx" <> token ++ py "_0.docx").
Proof.
  cbv zeta. repeat split.
  - vm_compute. discriminate.
  - intros token H. apply (f_equal (@rev char)) in H.
    rewrite rev_app_distr in H. vm_compute in H. discriminate.
Qed.

Lemma fallback_entry_name_witness :
  let result :=
    run (csv_of labelled_rows) echo_render zipfile_name
      (pressed (Some [80%N; 75%N]) (Some [86%N]) (py "  ")) in
  let name := py "Eintrag_" ++ format_label (LText (py "Bob")) ++ py ".docx" in
  name = py "Eintrag_Bob.docx" /\
  filename_prefix (py "  ") (LText (py "Bob"))
    (to_dict (columns labelled_rows) [VStr (py "Meier"); VNaN])
  = py "Eintrag_" ++ format_label (LText (py "Bob")) /\
  option_map fst (nth_error (written (trace (snd result))) 1) = Some name /\
  (exists entries filename,
      downloads (trace (snd result)) = [entries] /\
      zipfile_name name = inl filename /\
      option_map fst (nth_error entries 1) = Some filename).
Proof.
  cbv zeta. split; [reflexivity|].
  destruct (@fallback_entry_name (csv_of labelled_rows) echo_render zipfile_name
              [80%N; 75%N] [86%N] (py "  ") labelled_rows 1 (LText (py "Bob"))
              [VStr (py "Meier"); VNaN] eq_refl eq_refl eq_refl eq_refl)
    as (H1 & H2 & H3 & _).
  split; [exact H1|]. split; [exact H2 | exact H3].
Defined.

(** C7, as stated, fails: a CSV with a header and no data row is read as
    a frame without rows; the loop does nothing and the run ends with the
    success message and a download of an archive without entries, not
    with a warning. *)
Lemma empty_source_not_refused :
  let result :=
    run (csv_of header_only) echo_render zipfile_name
      (pressed (Some [80%N; 75%N]) (Some [86%N]) (py "Dokument_{Nachname}_{Vorname}")) in
  rows header_only = [] /\
  fst result = Returned tt /\
  warnings (trace (snd result)) = [] /\
  successes (trace (snd result)) = [success_text] /\
  downloads (trace (snd result)) = [[]] /\
  downloads (trace (snd result)) <> [].
Proof. cbv zeta. repeat split. vm_compute. discriminate. Qed.

Lemma empty_source_succeeds_witness :
  run (csv_of header_only) echo_render zipfile_name
    (pressed (Some [80%N; 75%N]) (Some [86%N]) (py "Dokument_{Nachname}_{Vorname}"))
  = (Returned tt,
     mkState [ReadCsv [86%N]; StSuccess success_text; download_button []] []).
Proof.
  exact (@empty_source_succeeds (csv_of header_only) echo_render zipfile_name
           [80%N; 75%N] [86%N] (py "Dokument_{Nachname}_{Vorname}") header_only
           eq_refl eq_refl).
Defined.

Lemma render_failure_aborts_witness :
  let result :=
    run (csv_of gap_rows) strict_render zipfile_name
      (pressed (Some [80%N; 75%N]) (Some [86%N]) (py "Dokument_{Nachname}_{Vorname}")) in
  fst result = Raised (py "cannot render NaN") /\
  downloads (trace (snd result)) = [] /\
  successes (trace (snd result)) = [] /\
  rendered (trace (snd result))
  = map (to_dict (columns gap_rows))
      ([[VStr (py "Anna"); VStr (py "Muster")]] ++ [[VStr (py "Bob"); VNaN]]) /\
  length (zip_buffer (snd result)) = 1.
Proof.
  cbv zeta.
  destruct (@render_failure_aborts (csv_of gap_rows) strict_render zipfile_name
              [80%N; 75%N] [86%N] (py "Dokument_{Nachname}_{Vorname}") gap_rows
              [(LPos 0, [VStr (py "Anna"); VStr (py "Muster")])]
              (LPos 1) [VStr (py "Bob"); VNaN]
              [(LPos 2, [VStr (py "Cleo"); VStr (py "Kurz")])]
              (py "cannot render NaN") eq_refl eq_refl eq_refl)
    as (_ & H2 & H3 & _ & H5).
  destruct (H5 eq_refl) as (H6 & H7 & H8).
  split; [exact H6|]. split; [exact H2|]. split; [exact H3|].
  split; [exact H7 | exact H8].
Defined.

Lemma missing_input_warns_witness :
  let inp := pressed None (Some [86%N]) (py "Dokument_{Nachname}_{Vorname}") in
  run (csv_of two_rows) echo_render zipfile_name inp
  = (Returned tt, mkState [StWarning warning_text] []) /\
  csv_reads (trace (snd (run (csv_of two_rows) echo_render zipfile_name inp))) = [] /\
  rendered (trace (snd (run (csv_of two_rows) echo_render zipfile_name inp))) = [] /\
  downloads (trace (snd (run (csv_of two_rows) echo_render zipfile_name inp))) = [].
Proof.
  cbv zeta.
  exact (@missing_input_warns (csv_of two_rows) echo_render zipfile_name
           (pressed None (Some [86%N]) (py "Dokument_{Nachname}_{Vorname}"))
           eq_refl (or_introl eq_refl)).
Defined.

(** * Further properties of the batch *)

Section MoreClaims.

Variable read_csv : bytes -> DataFrame + exn.
Variable docx_render : bytes -> dict -> bytes + exn.
Variable zip_name : str -> str + exn.

(** X9: in a frame whose rows [read_csv] has numbered, when the filename
    expands to whitespace for every row and no row raises, the documents
    are handed to the archive as Eintrag_0.docx, Eintrag_1.docx, ... in row
    order, and no two of these names are the same. *)
Theorem fallback_batch_names_distinct (template csv : bytes) (name_template : str)
    (data : DataFrame) :
  read_csv csv = inl data ->
  index_of data = range_index (length (rows data)) ->
  forallb (row_ok docx_render zip_name template name_template (columns data))
    (iterrows data) = true ->
  forallb (fun row => forallb isspace
             (expand_filename_template name_template (to_dict (columns data) row)))
    (rows data) = true ->
  let result :=
    run read_csv docx_render zip_name
      (pressed (Some template) (Some csv) name_template) in
  map fst (written (trace (snd result)))
  = map (fun i => py "Eintrag_" ++ str_of_nat i ++ py ".docx")
      (seq 0 (length (rows data))) /\
  NoDup (map fst (written (trace (snd result)))).
Proof.
  intros Hcsv Hindex Hok Hblank result. subst result.
  rewrite (@run_ok read_csv docx_render zip_name template csv name_template data Hcsv Hok).
  cbn [snd trace written]. rewrite written_app, written_rows.
  cbn [written download_button]. rewrite app_nil_r, map_map. cbn [fst].
  assert (E : map (fun it => row_name name_template (columns data) it) (iterrows data)
              = map (fun i => py "Eintrag_" ++ str_of_nat i ++ py ".docx")
                  (seq 0 (length (rows data)))).
  { transitivity (map (fun index => py "Eintrag_" ++ format_label index ++ py ".docx")
                    (index_of data)).
    - unfold index_of. rewrite map_map. apply map_ext_in. intros [index row] Hin.
      rewrite forallb_forall in Hblank.
      unfold row_name, docx_filename, filename_prefix. cbn [fst snd].
      rewrite strip_test, Hblank, <- app_assoc; [reflexivity|].
      unfold rows. apply (in_map snd) in Hin. exact Hin.
    - rewrite Hindex. unfold range_index. rewrite map_map. reflexivity. }
  rewrite E. split; [reflexivity|].
  apply Injective_map_NoDup; [|apply seq_NoDup].
  intros i j H. apply app_inv_head, app_inv_tail in H. apply str_of_nat_inj, H.
Qed.

(** X10: when the CSV cannot be read, the exception does not leave
    [main]: the run returns, and all it shows is the error message with
    the text of the exception; nothing is rendered and no archive is
    offered. *)
Theorem parse_error_reported (template csv : bytes) (name_template : str) (e : exn) :
  read_csv csv = inr e ->
  let result :=
    run read_csv docx_render zip_name
      (pressed (Some template) (Some csv) name_template) in
  fst result = Returned tt /\
  trace (snd result)
  = [ReadCsv csv; StError (py "Fehler beim Einlesen der CSV-Datei: " ++ e)] /\
  rendered (trace (snd result)) = [] /\
  downloads (trace (snd result)) = [].
Proof.
  intros H result. subst result.
  rewrite (@run_parse_error read_csv docx_render zip_name template csv name_template e H).
  repeat split.
Qed.

(** X11: an archive is offered for download only at the end of a run that
    went through: both files were there, the CSV was read, every row was
    rendered and written without an exception, the run returned, and the
    archive holds one entry for every row, in row order, under the name the
    archive keeps for the row's filename.  No other run offers an
    archive. *)
Theorem download_only_when_complete (inp : inputs) (offered : archive) :
  In offered (downloads (trace (snd (run read_csv docx_render zip_name inp)))) ->
  exists template csv data,
    button inp = true /\
    uploaded_template inp = Some template /\
    csv_file inp = Some csv /\
    read_csv csv = inl data /\
    forallb (row_ok docx_render zip_name template (filename_template inp) (columns data))
      (iterrows data) = true /\
    fst (run read_csv docx_render zip_name inp) = Returned tt /\
    offered
    = map (row_entry docx_render zip_name template (filename_template inp) (columns data))
        (iterrows data) /\
    length offered = length (rows data).
Proof.
  generalize (run_cases read_csv docx_render zip_name inp).
  generalize (run read_csv docx_render zip_name inp). intros r H.
  destruct H as [Hb | Hb Hm | template csv e Hinp Hcsv
                 | template csv data Hinp Hcsv Hok entries
                 | template csv data done item rest e Hinp Hcsv Hrows Hd He
                 | template csv data done item rest e Hinp Hcsv Hrows Hd Hr Hw];
    cbn [fst snd trace downloads]; try (intros []).
  - rewrite downloads_app, downloads_rows. cbn. intros [<-|[]].
    exists template, csv, data. rewrite Hinp. cbn. repeat split; try assumption.
    subst entries. unfold rows. rewrite !length_map. reflexivity.
  - rewrite downloads_app, downloads_rows. cbn. intros [].
  - rewrite downloads_rows. intros [].
Qed.

(** X12: [main] lets an exception out only if rendering or the write to
    the archive raised it for a row of the frame: the run ends in an
    exception only with both files there and the CSV read, and the
    exception is the one [docx_render] raised for some row or the one
    [zipfile] raised for the name of some row.  What [read_csv] raises does
    not leave [main]. *)
Theorem raised_by_row (inp : inputs) (e : exn) :
  fst (run read_csv docx_render zip_name inp) = Raised e ->
  exists template csv data index row,
    uploaded_template inp = Some template /\
    csv_file inp = Some csv /\
    read_csv csv = inl data /\
    In (index, row) (iterrows data) /\
    (docx_render template (to_dict (columns data) row) = inr e \/
     zip_name (docx_filename (filename_template inp) index (to_dict (columns data) row))
     = inr e).
Proof.
  generalize (run_cases read_csv docx_render zip_name inp).
  generalize (run read_csv docx_render zip_name inp). intros r H.
  destruct H as [Hb | Hb Hm | template csv e' Hinp Hcsv
                 | template csv data Hinp Hcsv Hok entries
                 | template csv data done [index row] rest e' Hinp Hcsv Hrows Hd He
                 | template csv data done [index row] rest e' Hinp Hcsv Hrows Hd Hr Hw];
    cbn [fst]; try discriminate.
  - intros [= ->]. exists template, csv, data, index, row.
    rewrite Hinp. cbn. repeat split; try assumption.
    + rewrite Hrows. apply in_elt.
    + left. exact He.
  - intros [= ->]. exists template, csv, data, index, row.
    rewrite Hinp. cbn. repeat split; try assumption.
    + rewrite Hrows. apply in_elt.
    + right. exact Hw.
Qed.

(** X13: whichever way the loop ends, the entries in the ZIP buffer are
    those of an initial stretch of the rows, in row order and with no row
    left out, each a row that was rendered and written without an
    exception. *)
Theorem written_is_initial_rows (template csv : bytes) (name_template : str)
    (data : DataFrame) :
  read_csv csv = inl data ->
  let result :=
    run read_csv docx_render zip_name
      (pressed (Some template) (Some csv) name_template) in
  exists k,
    k <= length (rows data) /\
    zip_buffer (snd result)
    = map (row_entry docx_render zip_name template name_template (columns data))
        (firstn k (iterrows data)) /\
    forallb (row_ok docx_render zip_name template name_template (columns data))
      (firstn k (iterrows data)) = true.
Proof.
  intros Hcsv result. subst result.
  destruct (items_split docx_render zip_name template name_template (columns data)
              (iterrows data))
    as [Hok | (done & item & rest & e & Hrows & Hd & [He | [Hr Hw]])].
  - exists (length (rows data)).
    rewrite (@run_ok read_csv docx_render zip_name template csv name_template data Hcsv Hok).
    cbn [snd zip_buffer]. unfold rows. rewrite length_map, firstn_all.
    repeat split; [apply Nat.le_refl | exact Hok].
  - exists (length done).
    rewrite (@run_render_fails read_csv docx_render zip_name template csv name_template
               data done item rest e Hcsv Hrows Hd He).
    cbn [snd zip_buffer]. unfold rows. rewrite Hrows, firstn_exact, length_map, length_app.
    repeat split; [lia | exact Hd].
  - exists (length done).
    rewrite (@run_write_fails read_csv docx_render zip_name template csv name_template
               data done item rest e Hcsv Hrows Hd Hr Hw).
    cbn [snd zip_buffer]. unfold rows. rewrite Hrows, firstn_exact, length_map, length_app.
    repeat split; [lia | exact Hd].
Qed.

(** X14: a run shows at most one of the three messages and reads the CSV
    at most once; the download button comes with the success message and
    with it only. *)
Theorem one_message_per_run (inp : inputs) :
  let t := trace (snd (run read_csv docx_render zip_name inp)) in
  length (warnings t) + length (errors t) + length (successes t) <= 1 /\
  length (csv_reads t) <= 1 /\
  length (downloads t) = length (successes t).
Proof.
  generalize (run_cases read_csv docx_render zip_name inp).
  generalize (run read_csv docx_render zip_name inp). intros r H.
  destruct H as [Hb | Hb Hm | template csv e Hinp Hcsv
                 | template csv data Hinp Hcsv Hok entries
                 | template csv data done item rest e Hinp Hcsv Hrows Hd He
                 | template csv data done item rest e Hinp Hcsv Hrows Hd Hr Hw];
    cbn [fst snd trace warnings errors successes csv_reads downloads];
    rewrite ?warnings_app, ?errors_app, ?successes_app, ?csv_reads_app, ?downloads_app;
    try match goal with
        | |- context [flat_map (row_events ?r ?t ?n ?c) ?items] =>
            destruct (quiet_rows r t n c items) as (-> & -> & -> & -> & ->)
        end;
    cbn; repeat split; lia.
Qed.

(** X17: when both files are there, the CSV is read and every row is
    rendered and written without an exception, the run does, in this order
    and nothing else: read the CSV; for each row in turn render its
    document and then hand it to the archive under its filename; show the
    success message; offer the archive of all entries. *)
Theorem complete_run_trace (template csv : bytes) (name_template : str)
    (data : DataFrame) :
  read_csv csv = inl data ->
  forallb (row_ok docx_render zip_name template name_template (columns data))
    (iterrows data) = true ->
  let name := fun it : label * list value =>
    docx_filename name_template (fst it) (to_dict (columns data) (snd it)) in
  let docx := fun it : label * list value =>
    docx_bytes_of docx_render template (to_dict (columns data) (snd it)) in
  trace (snd (run read_csv docx_render zip_name
                (pressed (Some template) (Some csv) name_template)))
  = ReadCsv csv
    :: flat_map (fun it =>
                   [GenerateDoc template (to_dict (columns data) (snd it));
                    WriteStr (name it) (docx it)])
         (iterrows data)
    ++ [StSuccess (py "Dokumente erfolgreich generiert!");
        StDownloadButton (py "ZIP-Archiv herunterladen")
          (map (fun it => (stored_name zip_name (name it), docx it)) (iterrows data))
          (py "dokumente.zip") (py "application/x-zip-compressed")].
Proof.
  intros Hcsv Hok name docx.
  rewrite (@run_ok read_csv docx_render zip_name template csv name_template data Hcsv Hok).
  reflexivity.
Qed.

End MoreClaims.

Lemma fallback_batch_names_distinct_witness :
  let result :=
    run (csv_of gap_rows) echo_render zipfile_name
      (pressed (Some [80%N; 75%N]) (Some [86%N]) (py "  ")) in
  map fst (written (trace (snd result)))
  = map (fun i => py "Eintrag_" ++ str_of_nat i ++ py ".docx") (seq 0 3) /\
  NoDup (map fst (written (trace (snd result)))).
Proof.
  cbv zeta.
  exact (@fallback_batch_names_distinct (csv_of gap_rows) echo_render zipfile_name
           [80%N; 75%N] [86%N] (py "  ") gap_rows eq_refl eq_refl eq_refl eq_refl).
Defined.

Lemma parse_error_reported_witness :
  let result :=
    run csv_unreadable echo_render zipfile_name
      (pressed (Some [80%N; 75%N]) (Some []) (py "Dokument_{Nachname}")) in
  fst result = Returned tt /\
  trace (snd result)
  = [ReadCsv [];
     StError (py "Fehler beim Einlesen der CSV-Datei: "
              ++ py "No columns to parse from file")] /\
  rendered (trace (snd result)) = [] /\
  downloads (trace (snd result)) = [].
Proof.
  cbv zeta.
  exact (@parse_error_reported csv_unreadable echo_render zipfile_name
           [80%N; 75%N] [] (py "Dokument_{Nachname}")
           (py "No columns to parse from file") eq_refl).
Defined.

Lemma download_only_when_complete_witness :
  let inp := pressed (Some [80%N; 75%N]) (Some [86%N]) (py "{Vorname}") in
  let offered := [(py "Anna.docx", [80%N; 75%N]); (py "Bob.docx", [80%N; 75%N])] in
  exists template csv data,
    button inp = true /\
    uploaded_template inp = Some template /\
    csv_file inp = Some csv /\
    csv_of two_rows csv = inl data /\
    forallb (row_ok echo_render zipfile_name template (filename_template inp)
               (columns data)) (iterrows data) = true /\
    fst (run (csv_of two_rows) echo_render zipfile_name inp) = Returned tt /\
    offered
    = map (row_entry echo_render zipfile_name template (filename_template inp)
             (columns data)) (iterrows data) /\
    length offered = length (rows data).
Proof.
  cbv zeta.
  apply (@download_only_when_complete (csv_of two_rows) echo_render zipfile_name
           (pressed (Some [80%N; 75%N]) (Some [86%N]) (py "{Vorname}"))
           [(py "Anna.docx", [80%N; 75%N]); (py "Bob.docx", [80%N; 75%N])]).
  left. reflexivity.
Defined.

Lemma raised_by_row_witness :
  let inp := pressed (Some [80%N; 75%N]) (Some [86%N]) (py "{Vorname}") in
  let e := py "cannot render NaN" in
  exists template csv data index row,
    uploaded_template inp = Some template /\
    csv_file inp = Some csv /\
    csv_of gap_rows csv = inl data /\
    In (index, row) (iterrows data) /\
    (strict_render template (to_dict (columns data) row) = inr e \/
     zipfile_name (docx_filename (filename_template inp) index (to_dict (columns data) row))
     = inr e).
Proof.
  cbv zeta.
  apply (@raised_by_row (csv_of gap_rows) strict_render zipfile_name
           (pressed (Some [80%N; 75%N]) (Some [86%N]) (py "{Vorname}"))
           (py "cannot render NaN")).
  reflexivity.
Defined.

Lemma written_is_initial_rows_witness :
  let result :=
    run (csv_of gap_rows) strict_render zipfile_name
      (pressed (Some [80%N; 75%N]) (Some [86%N]) (py "{Vorname}")) in
  exists k,
    k <= length (rows gap_rows) /\
    zip_buffer (snd result)
    = map (row_entry strict_render zipfile_name [80%N; 75%N] (py "{Vorname}")
             (columns gap_rows)) (firstn k (iterrows gap_rows)) /\
    forallb (row_ok strict_render zipfile_name [80%N; 75%N] (py "{Vorname}")
               (columns gap_rows)) (firstn k (iterrows gap_rows)) = true.
Proof.
  cbv zeta.
  exact (@written_is_initial_rows (csv_of gap_rows) strict_render zipfile_name
           [80%N; 75%N] [86%N] (py "{Vorname}") gap_rows eq_refl).
Defined.

Lemma complete_run_trace_witness :
  trace (snd (run (csv_of two_rows) echo_render zipfile_name
                (pressed (Some [80%N; 75%N]) (Some [86%N]) (py "{Vorname}"))))
  = [ReadCsv [86%N];
     GenerateDoc [80%N; 75%N] (to_dict (columns two_rows) [VStr (py "Anna"); VStr (py "Muster")]);
     WriteStr (py "Anna.docx") [80%N; 75%N];
     GenerateDoc [80%N; 75%N] (to_dict (columns two_rows) [VStr (py "Bob"); VStr (py "Meier")]);
     WriteStr (py "Bob.docx") [80%N; 75%N];
     StSuccess (py "Dokumente erfolgreich generiert!");
     StDownloadButton (py "ZIP-Archiv herunterladen")
       [(py "Anna.docx", [80%N; 75%N]); (py "Bob.docx", [80%N; 75%N])]
       (py "dokumente.zip") (py "application/x-zip-compressed")].
Proof.
  exact (@complete_run_trace (csv_of two_rows) echo_render zipfile_name
           [80%N; 75%N] [86%N] (py "{Vorname}") two_rows eq_refl eq_refl).
Defined.

(** ** The row context *)

Lemma dict_set_fresh (k : str) (v : value) (d : dict) :
  ~ In k (keys d) -> dict_set k v d = d ++ [(k, v)].
Proof.
  induction d as [|[k' v'] d IH]; simpl; intros H; [reflexivity|].
  rewrite str_eqb_neq by (intros ->; tauto).
  rewrite IH by tauto. reflexivity.
Qed.

Lemma to_dict_from (cols : list str) (row : list value) (acc : dict) :
  NoDup cols ->
  (forall k, In k cols -> ~ In k (keys acc)) ->
  fold_left (fun d kv => dict_set (fst kv) (snd kv) d) (combine cols row) acc
  = acc ++ combine cols row.
Proof.
  revert row acc. induction cols as [|c cols IH]; intros row acc Hnd Hfresh.
  - simpl. symmetry; apply app_nil_r.
  - destruct row as [|r row]; [simpl; symmetry; apply app_nil_r|].
    inversion Hnd as [|? ? Hc Hnd']; subst.
    cbn [combine fold_left fst snd].
    rewrite dict_set_fresh by (apply Hfresh; left; reflexivity).
    rewrite IH; [rewrite <- app_assoc; reflexivity | exact Hnd' |].
    intros k Hk. unfold keys. rewrite map_app, in_app_iff. cbn [map fst In].
    intros [H|[->|[]]]; [|contradiction].
    apply (Hfresh k); [right; exact Hk | exact H].
Qed.

(** With distinct column names the context is the row's cells under the
    column names, in column order. *)
Lemma to_dict_combine (cols : list str) (row : list value) :
  NoDup cols -> to_dict cols row = combine cols row.
Proof.
  intros Hnd. unfold to_dict. rewrite to_dict_from; [reflexivity | exact Hnd |].
  intros k _ [].
Qed.

Lemma dict_get_combine (cols : list str) (row : list value) (i : nat)
    (col : str) (cell : value) :
  NoDup cols ->
  nth_error cols i = Some col -> nth_error row i = Some cell ->
  dict_get col (combine cols row) = Some cell.
Proof.
  revert row i. induction cols as [|c cols IH]; intros [|r row] [|i] Hnd Hc Hr;
    simpl in *; try discriminate.
  - injection Hc as ->. injection Hr as ->. rewrite str_eqb_refl. reflexivity.
  - inversion Hnd as [|? ? Hnot Hnd']; subst.
    rewrite str_eqb_neq.
    + eapply IH; eassumption.
    + intros ->. apply Hnot. eapply nth_error_In, Hc.
Qed.

Lemma contains_no_open (q s : str) :
  forallb not_open s = true -> contains (lbrace :: q) s = false.
Proof.
  induction s as [|c s IH]; intros H; [reflexivity|].
  simpl in H. apply andb_true_iff in H as [Hc Hs].
  cbn [contains]. rewrite (@startswith_not_open q c s Hc), IH by exact Hs. reflexivity.
Qed.

Lemma expand_no_open (s : str) (context : dict) :
  forallb not_open s = true -> expand_filename_template s context = s.
Proof.
  intros H. induction context as [|[k v] context IH]; [reflexivity|].
  unfold expand_filename_template in *. cbn [fold_left expand_step].
  unfold placeholder. rewrite contains_no_open by exact H. exact IH.
Qed.

Lemma startswith_whole_name (k n : str) :
  forallb not_close n = true ->
  startswith (k ++ [rbrace]) (n ++ [rbrace]) = true -> k = n.
Proof.
  revert n; induction k as [|x k IH]; intros [|y n] Hn H; simpl in *.
  - reflexivity.
  - apply andb_true_iff in Hn as [Hy _]. apply andb_true_iff in H as [H _].
    unfold not_close in Hy. rewrite N.eqb_sym, H in Hy. discriminate.
  - apply andb_true_iff in H as [_ H]. destruct k; discriminate.
  - apply andb_true_iff in Hn as [_ Hn].
    apply andb_true_iff in H as [Hxy H]. apply N.eqb_eq in Hxy as ->.
    f_equal. apply IH; assumption.
Qed.

(** The token of a brace-free name holds the placeholder of no other key. *)
Lemma token_holds_own_placeholder_only (k n : str) :
  brace_free n = true -> k <> n ->
  contains (placeholder k) (placeholder n) = false.
Proof.
  intros Hn Hne. unfold placeholder. cbn [contains].
  rewrite contains_no_open by (apply not_open_tail; exact Hn).
  rewrite orb_false_r.
  destruct (startswith _ _) eqn:E; [|reflexivity].
  exfalso; apply Hne. cbn [startswith] in E. apply andb_true_iff in E as [_ E].
  apply brace_free_split in Hn as [_ Hn].
  eapply startswith_whole_name; eassumption.
Qed.

(** A template that is one token of a brace-free name expands to the value
    the context has for the name, when that value has no opening brace. *)
Lemma expand_single_token (n : str) (v : value) (context : dict) :
  brace_free n = true ->
  forallb not_open (str_of v) = true ->
  dict_get n context = Some v ->
  expand_filename_template (placeholder n) context = str_of v.
Proof.
  intros Hn Hv. induction context as [|[k v'] context IH]; cbn [dict_get];
    [intros H; discriminate H|].
  destruct (str_eqb k n) eqn:E.
  - apply str_eqb_eq in E as ->. intros [= ->].
    unfold expand_filename_template. cbn [fold_left].
    rewrite expand_step_replace.
    assert (R : replace (placeholder n) (str_of v) (placeholder n) = str_of v).
    { unfold replace, placeholder.
      rewrite <- (app_nil_r (lbrace :: n ++ [rbrace])) at 2.
      rewrite scan_hit. apply app_nil_r. }
    rewrite R. apply expand_no_open, Hv.
  - intros Hget. unfold expand_filename_template in *. cbn [fold_left expand_step].
    rewrite token_holds_own_placeholder_only; [apply IH, Hget | exact Hn |].
    intros ->. rewrite str_eqb_refl in E. discriminate.
Qed.

Lemma read_cell_na (na_values : list str) (text : str) :
  In text na_values -> read_cell na_values text = VNaN.
Proof.
  intros Hin. unfold read_cell.
  assert (E : existsb (str_eqb text) na_values = true).
  { apply existsb_exists. exists text. split; [exact Hin | apply str_eqb_refl]. }
  rewrite E. reflexivity.
Qed.

Lemma read_cell_text (na_values : list str) (text : str) :
  ~ In text na_values -> read_cell na_values text = VStr text.
Proof.
  intros Hnot. unfold read_cell.
  destruct (existsb (str_eqb text) na_values) eqn:E; [|reflexivity].
  apply existsb_exists in E as (x & Hx & Heq). apply str_eqb_eq in Heq as <-.
  contradiction.
Qed.

Lemma length_read_row (na_values : list str) (width : nat) (fields : list str) :
  length fields <= width -> length (read_row na_values width fields) = width.
Proof.
  intros H. unfold read_row. rewrite length_app, length_map, repeat_length. lia.
Qed.

Lemma nth_error_read_row (na_values : list str) (width : nat) (fields : list str)
    (i : nat) :
  i < width -> length fields <= width ->
  nth_error (read_row na_values width fields) i
  = Some match nth_error fields i with
         | Some text => read_cell na_values text
         | None => VNaN
         end.
Proof.
  intros Hi Hlen. unfold read_row.
  destruct (nth_error fields i) as [text|] eqn:E.
  - rewrite nth_error_app1.
    + rewrite nth_error_map, E. reflexivity.
    + rewrite length_map. apply nth_error_Some. rewrite E. discriminate.
  - apply nth_error_None in E.
    rewrite nth_error_app2 by (rewrite length_map; exact E).
    rewrite length_map. apply nth_error_repeat. lia.
Qed.

(** C3, as stated, fails: an empty field, like a field the line stops
    short of, comes into the context as NaN, which is not a string, and
    its placeholder expands to the text nan. *)
Lemma missing_cell_is_nan :
  let cols := [py "Vorname"; py "Nachname"] in
  let empty_field := to_dict cols (read_row default_na_values 2 [py "Bob"; []]) in
  let short_line := to_dict cols (read_row default_na_values 2 [py "Bob"]) in
  dict_get (py "Nachname") empty_field = Some VNaN /\
  dict_get (py "Nachname") empty_field <> Some (VStr []) /\
  expand_filename_template (py "{Nachname}") empty_field = py "nan" /\
  expand_filename_template (py "{Nachname}") empty_field <> [] /\
  dict_get (py "Nachname") short_line = Some VNaN /\
  expand_filename_template (py "{Nachname}") short_line = py "nan".
Proof. cbv zeta. repeat split; vm_compute; discriminate. Qed.

(** C3 (amended): for a header of distinct column names and a data line
    with no more fields than the header, the row context has every
    declared column as a key, never leaving one out.  A field whose text
    is none of the spellings [read_csv] takes for missing is there as that
    text, unchanged, as a string; a field that is empty, that the line
    stops short of, or that is spelled as missing is there as NaN and not
    as the empty string, and a placeholder of its column, when the column
    name has no brace, expands to the text nan. *)
Theorem row_context_cells (na_values : list str) (cols : list str)
    (fields : list str) (i : nat) (col : str) :
  In [] na_values ->
  NoDup cols ->
  length fields <= length cols ->
  nth_error cols i = Some col ->
  let context := to_dict cols (read_row na_values (length cols) fields) in
  (exists cell, dict_get col context = Some cell) /\
  (forall text,
      nth_error fields i = Some text -> ~ In text na_values ->
      dict_get col context = Some (VStr text)) /\
  (nth_error fields i = None \/ nth_error fields i = Some [] \/
   (exists text, nth_error fields i = Some text /\ In text na_values) ->
   dict_get col context = Some VNaN /\
   dict_get col context <> Some (VStr []) /\
   (brace_free col = true ->
    expand_filename_template (placeholder col) context = py "nan")).
Proof.
  intros Hna Hnd Hlen Hcol context.
  assert (Hi : i < length cols) by (apply nth_error_Some; rewrite Hcol; discriminate).
  assert (Hget : dict_get col context
                 = Some match nth_error fields i with
                        | Some text => read_cell na_values text
                        | None => VNaN
                        end).
  { subst context. rewrite to_dict_combine by exact Hnd.
    eapply dict_get_combine; [exact Hnd | exact Hcol |].
    apply nth_error_read_row; assumption. }
  split; [eexists; exact Hget|]. split.
  - intros text Ht Hnot. rewrite Hget, Ht, read_cell_text by exact Hnot. reflexivity.
  - intros Hmiss.
    assert (Hnan : dict_get col context = Some VNaN).
    { rewrite Hget. destruct Hmiss as [-> | [-> | (text & -> & Hin)]];
        [reflexivity | rewrite read_cell_na by exact Hna; reflexivity
         | rewrite read_cell_na by exact Hin; reflexivity]. }
    split; [exact Hnan|]. split; [rewrite Hnan; discriminate|].
    intros Hbf. apply (@expand_single_token col VNaN); [exact Hbf | reflexivity | exact Hnan].
Qed.

Lemma row_context_cells_witness :
  let context :=
    to_dict [py "Vorname"; py "Nachname"]
      (read_row default_na_values 2 [py "Bob"; []]) in
  (exists cell, dict_get (py "Nachname") context = Some cell) /\
  (forall text,
      nth_error [py "Bob"; []] 1 = Some text -> ~ In text default_na_values ->
      dict_get (py "Nachname") context = Some (VStr text)) /\
  (nth_error [py "Bob"; []] 1 = None \/ nth_error [py "Bob"; []] 1 = Some [] \/
   (exists text, nth_error [py "Bob"; []] 1 = Some text /\ In text default_na_values) ->
   dict_get (py "Nachname") context = Some VNaN /\
   dict_get (py "Nachname") context <> Some (VStr []) /\
   (brace_free (py "Nachname") = true ->
    expand_filename_template (placeholder (py "Nachname")) context = py "nan")).
Proof.
  cbv zeta.
  apply (@row_context_cells default_na_values [py "Vorname"; py "Nachname"]
           [py "Bob"; []] 1 (py "Nachname")).
  - left. reflexivity.
  - repeat constructor; simpl; intuition discriminate.
  - simpl. lia.
  - reflexivity.
Defined.

(** * Further properties of the expander *)

Lemma item_ok_value (context : dict) (name : str) (v : value) :
  forallb item_ok context = true ->
  dict_get name context = Some v -> brace_free (str_of v) = true.
Proof.
  intros Hc Hget. apply dict_get_Some_In in Hget.
  rewrite forallb_forall in Hc. specialize (Hc _ Hget).
  unfold item_ok in Hc. apply andb_true_iff in Hc as [_ Hv]. exact Hv.
Qed.

Lemma seg_resolve_text (context : dict) (segs : list segment) :
  template_of (map (seg_resolve context) segs) = flat_map (seg_subst context) segs.
Proof.
  unfold template_of. rewrite flat_map_concat_map, map_map, <- flat_map_concat_map.
  apply flat_map_ext. intros [text|name]; cbn; [reflexivity|].
  destruct (dict_get name context); reflexivity.
Qed.

Lemma seg_resolve_ok (context : dict) (segs : list segment) :
  forallb item_ok context = true ->
  forallb seg_ok segs = true ->
  forallb seg_ok (map (seg_resolve context) segs) = true.
Proof.
  intros Hc. induction segs as [|g segs IH]; simpl; [auto|].
  rewrite !andb_true_iff. intros [Hg Hs]. split; [|auto].
  destruct g as [text|name]; simpl in *; [exact Hg|].
  destruct (dict_get name context) as [v|] eqn:E; simpl; [|exact Hg].
  eapply item_ok_value; eassumption.
Qed.

Lemma seg_resolve_fixed (context : dict) (segs : list segment) :
  flat_map (seg_subst context) (map (seg_resolve context) segs)
  = flat_map (seg_subst context) segs.
Proof.
  rewrite flat_map_concat_map, map_map, <- flat_map_concat_map.
  apply flat_map_ext. intros [text|name]; cbn; [reflexivity|].
  destruct (dict_get name context) as [v|] eqn:E; cbn; [reflexivity|].
  rewrite E. reflexivity.
Qed.

Lemma brace_free_flat_map {A} (f : A -> str) (l : list A) :
  brace_free (flat_map f l) = forallb (fun x => brace_free (f x)) l.
Proof.
  induction l as [|x l IH]; [reflexivity|].
  cbn [flat_map forallb]. rewrite brace_free_app, IH. reflexivity.
Qed.

(** X1: on a template of brace-free text and tokens, with keys and values
    free of braces, the loop over the context amounts to one simultaneous
    lookup: text is copied, a token whose name is a key becomes that key's
    value as a string, and a token of an unknown name is copied. *)
Theorem expand_simultaneous (context : dict) (segs : list segment) :
  forallb item_ok context = true ->
  forallb seg_ok segs = true ->
  expand_filename_template (template_of segs) context
  = flat_map (seg_subst context) segs.
Proof. intros Hc Hs. apply expand_template_of; assumption. Qed.

Lemma expand_simultaneous_witness :
  expand_filename_template
    (template_of [Lit (py "Rechnung_"); Tok (py "Kundennummer"); Lit (py "_"); Tok (py "Ort")])
    [(py "Nachname", VStr (py "Meier")); (py "Kundennummer", VStr (py "1234"))]
  = py "Rechnung_1234_{Ort}".
Proof.
  apply (@expand_simultaneous
           [(py "Nachname", VStr (py "Meier")); (py "Kundennummer", VStr (py "1234"))]
           [Lit (py "Rechnung_"); Tok (py "Kundennummer"); Lit (py "_"); Tok (py "Ort")]);
    reflexivity.
Defined.

(** X2: under the same conditions expanding is idempotent: what the
    expander returns is left as it is by a second pass with the same
    context. *)
Theorem expand_idempotent (context : dict) (segs : list segment) :
  forallb item_ok context = true ->
  forallb seg_ok segs = true ->
  expand_filename_template
    (expand_filename_template (template_of segs) context) context
  = expand_filename_template (template_of segs) context.
Proof.
  intros Hc Hs.
  rewrite (@expand_template_of context segs Hc Hs) at 1.
  rewrite <- seg_resolve_text.
  rewrite expand_template_of; [|exact Hc | apply seg_resolve_ok; assumption].
  rewrite seg_resolve_fixed. symmetry. apply expand_template_of; assumption.
Qed.

Lemma expand_idempotent_witness :
  let context := [(py "Nachname", VStr (py "Meier")); (py "Vorname", VNaN)] in
  let segs := [Lit (py "Dokument_"); Tok (py "Nachname"); Tok (py "Vorname"); Tok (py "Ort")] in
  expand_filename_template (template_of segs) context = py "Dokument_Meiernan{Ort}" /\
  expand_filename_template (expand_filename_template (template_of segs) context) context
  = expand_filename_template (template_of segs) context.
Proof.
  cbv zeta. split; [reflexivity|].
  apply expand_idempotent; reflexivity.
Defined.

(** X3: under the same conditions the expander goes through a template
    piece by piece: two templates put one after the other expand to their
    two expansions put one after the other. *)
Theorem expand_concat (context : dict) (segs1 segs2 : list segment) :
  forallb item_ok context = true ->
  forallb seg_ok segs1 = true ->
  forallb seg_ok segs2 = true ->
  expand_filename_template (template_of segs1 ++ template_of segs2) context
  = expand_filename_template (template_of segs1) context
    ++ expand_filename_template (template_of segs2) context.
Proof.
  intros Hc H1 H2.
  rewrite (@expand_template_of context segs1 Hc H1), (@expand_template_of context segs2 Hc H2).
  rewrite <- flat_map_app. unfold template_of at 1 2. rewrite <- flat_map_app.
  apply expand_template_of; [exact Hc|].
  rewrite forallb_app, H1, H2. reflexivity.
Qed.

Lemma expand_concat_witness :
  let context := [(py "Nachname", VStr (py "Meier")); (py "Vorname", VStr (py "Bob"))] in
  expand_filename_template
    (template_of [Tok (py "Nachname"); Lit (py "_")] ++ template_of [Tok (py "Vorname")])
    context
  = expand_filename_template (template_of [Tok (py "Nachname"); Lit (py "_")]) context
    ++ expand_filename_template (template_of [Tok (py "Vorname")]) context.
Proof. cbv zeta. apply expand_concat; reflexivity. Defined.

(** X4: a template without an opening brace comes back unchanged, whatever
    the keys and values of the context are. *)
Theorem expand_without_open_brace (template_str : str) (context : dict) :
  forallb not_open template_str = true ->
  expand_filename_template template_str context = template_str.
Proof. apply expand_no_open. Qed.

Lemma expand_without_open_brace_witness :
  expand_filename_template (py "Brief}_2024")
    [(py "Brief", VStr (py "{x}")); (py "}", VNaN)]
  = py "Brief}_2024".
Proof. apply expand_without_open_brace. reflexivity. Defined.

(** X5: when every token of such a template names a key of the context,
    nothing of a placeholder is left: the result has no brace in it. *)
Theorem expand_all_known_brace_free (context : dict) (segs : list segment) :
  forallb item_ok context = true ->
  forallb seg_ok segs = true ->
  forallb (seg_known context) segs = true ->
  brace_free (expand_filename_template (template_of segs) context) = true.
Proof.
  intros Hc Hs Hk. rewrite (@expand_template_of context segs Hc Hs), brace_free_flat_map.
  apply forallb_forall. intros g Hg.
  rewrite forallb_forall in Hs, Hk. specialize (Hs _ Hg). specialize (Hk _ Hg).
  destruct g as [text|name]; simpl in *; [exact Hs|].
  destruct (dict_get name context) as [v|] eqn:E; [|discriminate].
  eapply item_ok_value; eassumption.
Qed.

Lemma expand_all_known_brace_free_witness :
  brace_free
    (expand_filename_template
       (template_of [Lit (py "Dokument_"); Tok (py "Nachname"); Lit (py "_"); Tok (py "Vorname")])
       [(py "Vorname", VStr (py "Anna")); (py "Nachname", VStr (py "Muster"))]) = true.
Proof. apply expand_all_known_brace_free; reflexivity. Defined.

(** X6: a template that is the one token of a brace-free name expands to
    the value the context has for the name, as a string, when that string
    has no opening brace; the other keys and values may be anything. *)
Theorem expand_lone_token (name : str) (v : value) (context : dict) :
  brace_free name = true ->
  forallb not_open (str_of v) = true ->
  dict_get name context = Some v ->
  expand_filename_template (placeholder name) context = str_of v.
Proof. apply expand_single_token. Qed.

Lemma expand_lone_token_witness :
  expand_filename_template (placeholder (py "Ort"))
    [(py "Or", VStr (py "{Ort}")); (py "Ort", VStr (py "Ulm}")); (py "t}", VStr (py "{"))]
  = py "Ulm}".
Proof.
  apply (@expand_lone_token (py "Ort") (VStr (py "Ulm}"))); reflexivity.
Defined.

(** * Further properties of the file names *)

(** X7: the name a row's document is filed under always has a character
    that is not whitespace, for every template, row label and context: the
    fallback steps in exactly when the expansion has none. *)
Theorem filename_prefix_not_blank (filename_template : str) (index : label)
    (context : dict) :
  forallb isspace (filename_prefix filename_template index context) = false /\
  py_not (strip (filename_prefix filename_template index context)) = false.
Proof.
  assert (H : forallb isspace (filename_prefix filename_template index context) = false).
  { unfold filename_prefix. rewrite strip_test.
    destruct (forallb isspace (expand_filename_template filename_template context)) eqn:E;
      [reflexivity | exact E]. }
  split; [exact H | rewrite strip_test; exact H].
Qed.

(** X8: an expansion with a character that is not whitespace is taken as
    the name as it stands, with whatever whitespace it has at its ends:
    [strip] is used for the test only. *)
Theorem nonblank_name_kept (filename_template : str) (index : label) (context : dict) :
  forallb isspace (expand_filename_template filename_template context) = false ->
  docx_filename filename_template index context
  = expand_filename_template filename_template context ++ py ".docx".
Proof.
  intros H. unfold docx_filename, filename_prefix. rewrite strip_test, H. reflexivity.
Qed.

Lemma nonblank_name_kept_witness :
  docx_filename (py " {Vorname} ") (LPos 3) [(py "Vorname", VStr (py "Anna"))]
  = py " Anna .docx".
Proof.
  apply (@nonblank_name_kept (py " {Vorname} ") (LPos 3) [(py "Vorname", VStr (py "Anna"))]).
  reflexivity.
Defined.

(** * Further properties of the row context *)

Lemma dict_get_skip (name key : str) (v : value) (c1 c2 : dict) :
  name <> key ->
  dict_get name (c1 ++ (key, v) :: c2) = dict_get name (c1 ++ c2).
Proof.
  intros Hne. induction c1 as [|[k' v'] c1 IH]; cbn [app dict_get].
  - rewrite str_eqb_neq by (intros ->; apply Hne; reflexivity). reflexivity.
  - rewrite IH. reflexivity.
Qed.

(** X15: a column no token of the template names has no part in the
    result: for a template of brace-free text and tokens, and keys and
    values free of braces, the expansion is the same with and without
    that column in the context. *)
Theorem unused_column_irrelevant (segs : list segment) (key : str) (v : value)
    (c1 c2 : dict) :
  forallb seg_ok segs = true ->
  forallb item_ok (c1 ++ (key, v) :: c2) = true ->
  ~ In (Tok key) segs ->
  expand_filename_template (template_of segs) (c1 ++ (key, v) :: c2)
  = expand_filename_template (template_of segs) (c1 ++ c2).
Proof.
  intros Hs Hc Hnot.
  assert (Hc' : forallb item_ok (c1 ++ c2) = true).
  { rewrite forallb_app in Hc |- *. cbn [forallb] in Hc.
    apply andb_true_iff in Hc as [H1 H2]. apply andb_true_iff in H2 as [_ H2].
    rewrite H1, H2. reflexivity. }
  rewrite !expand_template_of by assumption.
  rewrite !flat_map_concat_map. f_equal. apply map_ext_in.
  intros [text|name] Hin; cbn [seg_subst]; [reflexivity|].
  rewrite dict_get_skip; [reflexivity|]. intros ->. contradiction.
Qed.

Lemma unused_column_irrelevant_witness :
  expand_filename_template (template_of [Lit (py "Brief_"); Tok (py "Nachname")])
    ([(py "Vorname", VStr (py "Anna"))] ++ (py "Ort", VStr (py "Ulm"))
       :: [(py "Nachname", VStr (py "Muster"))])
  = expand_filename_template (template_of [Lit (py "Brief_"); Tok (py "Nachname")])
      ([(py "Vorname", VStr (py "Anna"))] ++ [(py "Nachname", VStr (py "Muster"))]).
Proof.
  apply unused_column_irrelevant.
  - reflexivity.
  - reflexivity.
  - simpl. intros [H|[H|[]]]; discriminate H.
Defined.

Lemma combine_fst {A B} (l : list A) (l' : list B) :
  length l' = length l -> map fst (combine l l') = l.
Proof.
  revert l'. induction l as [|x l IH]; intros [|y l'] H; simpl in *;
    try discriminate; [reflexivity|].
  rewrite IH by (injection H; auto). reflexivity.
Qed.

Lemma combine_snd {A B} (l : list A) (l' : list B) :
  length l' = length l -> map snd (combine l l') = l'.
Proof.
  revert l'. induction l as [|x l IH]; intros [|y l'] H; simpl in *;
    try discriminate; [reflexivity|].
  rewrite IH by (injection H; auto). reflexivity.
Qed.

(** X16: for distinct column names and a row as long as the header, the
    keys of the row context are the column names in header order and its
    values are the row's cells in row order: the expander meets the columns
    from left to right. *)
Theorem to_dict_keys_values (cols : list str) (row : list value) :
  NoDup cols ->
  length row = length cols ->
  keys (to_dict cols row) = cols /\ map snd (to_dict cols row) = row.
Proof.
  intros Hnd Hlen. rewrite to_dict_combine by exact Hnd. unfold keys.
  split; [apply combine_fst | apply combine_snd]; exact Hlen.
Qed.

Lemma to_dict_keys_values_witness :
  keys (to_dict (columns gap_rows) [VStr (py "Bob"); VNaN]) = columns gap_rows /\
  map snd (to_dict (columns gap_rows) [VStr (py "Bob"); VNaN]) = [VStr (py "Bob"); VNaN].
Proof.
  apply to_dict_keys_values.
  - repeat constructor; simpl; intuition discriminate.
  - reflexivity.
Defined.

